(** * devbooks-api: the request handlers of [src/app.controller.ts]

    A shallow embedding of the NestJS controller over the relational schema of
    [prisma/schema.prisma].  Handlers are computations in a state-and-exception
    monad over the database; the external collaborators (JWT signing, bcrypt,
    the Google Books HTTP API) are interfaces the development is generic in. *)

From Stdlib Require Import ZArith List String Ascii Bool Lia Permutation.
Import ListNotations.
Open Scope Z_scope.
Open Scope string_scope.

(* ===================================================================== *)
(** ** Data model ([prisma/schema.prisma], interfaces of the controller)  *)
(* ===================================================================== *)

(** [enum BookState]. *)
Inductive BookState : Type := IS_READING | READ | WANTS_TO_READ.

(** [interface GoogleBook]: the body of a catalog response. *)
Module ImageLinks.
Record t : Type := mk { thumbnail : string }.
End ImageLinks.

Module VolumeInfo.
Record t : Type := mk {
    title : string;
    subtitle : string;
    description : string;
    imageLinks : option ImageLinks.t;
    pageCount : Z
  }.
End VolumeInfo.

Module GoogleBook.
Record t : Type := mk { id : string; volumeInfo : VolumeInfo.t }.
End GoogleBook.

(** [model User]. *)
Module User.
Record t : Type := mk {
    id : Z;
    name : option string;
    email : string;
    avatar : option string;
    password : string
  }.
End User.

(** [model MyBooks]; the [book] column only ever receives a catalog
    response, so it is typed by [GoogleBook.t]. Instants are integers. *)
Module MyBooks.
Record t : Type := mk {
    id : Z;
    userId : Z;
    bookId : string;
    bookState : BookState;
    currentPage : option Z;
    totalPages : Z;
    book : GoogleBook.t;
    createdAt : Z;
    updatedAt : Z
  }.
End MyBooks.

(** A [user] object after [delete user.password]. *)
Module UserModel.
Record t : Type := mk {
    id : Z;
    name : option string;
    email : string;
    avatar : option string
  }.
End UserModel.

Definition delete_password (u : User.t) : UserModel.t :=
  {| UserModel.id := User.id u;
     UserModel.name := User.name u;
     UserModel.email := User.email u;
     UserModel.avatar := User.avatar u |}.

Module SignInResponse.
Record t : Type := mk {
    user : UserModel.t;
    accessToken : string;
    refreshToken : string
  }.
End SignInResponse.

Module SignUpResponse.
Record t : Type := mk { user : UserModel.t }.
End SignUpResponse.

Module RefreshResponse.
Record t : Type := mk { accessToken : string; refreshToken : string }.
End RefreshResponse.

Module AccessTokenPayload.
Record t : Type := mk { scope : list string; userId : Z }.
End AccessTokenPayload.

Module SignOptions.
Record t : Type := mk { expiresIn : string }.
End SignOptions.

Module AuthRequest.
Record t : Type := mk { userId : Z }.
End AuthRequest.

Module SignInBody.
Record t : Type := mk { email : string; password : string }.
End SignInBody.

Module SignUpBody.
Record t : Type := mk { name : string; email : string; password : string }.
End SignUpBody.

Module RefreshHeaders.
Record t : Type := mk { authorization : string }.
End RefreshHeaders.

Module AddToMyBooksBody.
Record t : Type := mk { bookId : string; bookState : BookState }.
End AddToMyBooksBody.

(** [page: number]; an integer, as the [Int] column it is written to. *)
Module UpdateBookReadingBody.
Record t : Type := mk { page : Z }.
End UpdateBookReadingBody.

Module UpdateBookReadingParams.
Record t : Type := mk { id : string }.
End UpdateBookReadingParams.

Module BookDetailsParams.
Record t : Type := mk { bookId : string }.
End BookDetailsParams.

(** [{...response.data, bookState: book?.bookState}]: the catalog body with
    one more property, [undefined] when the caller has no entry. *)
Module BookDetailsResponse.
Record t : Type := mk { data : GoogleBook.t; bookState : option BookState }.
End BookDetailsResponse.

Module MyBooksResponse.
Record t : Type := mk {
  isReading : list MyBooks.t;
  read : list MyBooks.t;
  wantsToRead : list MyBooks.t
}.
End MyBooksResponse.

(** [===] on two book states. *)
Definition BookState_eqb (a b : BookState) : bool :=
  match a, b with
  | IS_READING, IS_READING | READ, READ | WANTS_TO_READ, WANTS_TO_READ => true
  | _, _ => false
  end.

(** What a handler can throw. [Error] is the plain JavaScript [Error];
    the two [...Exception]s are the NestJS HTTP exceptions of the source;
    the last two are raised by collaborators (axios, the Prisma client). *)
Inductive Exception : Type :=
| UnauthorizedException (message : string)
| BadRequestException (message : string)
| Error (message : string)
| AxiosError
| PrismaClientKnownRequestError (code : string).

(** The HTTP status the caller receives for a thrown exception: NestJS
    answers an [HttpException] with its own status (401 for
    [UnauthorizedException], 400 for [BadRequestException]) and anything
    else with 500 "Internal server error". *)
Definition getStatus (e : Exception) : Z :=
  match e with
  | UnauthorizedException _ => 401
  | BadRequestException _ => 400
  | Error _ | AxiosError | PrismaClientKnownRequestError _ => 500
  end.

(* ===================================================================== *)
(** ** The database and the handler monad                                 *)
(* ===================================================================== *)

(** The two tables in store order, and the two [autoincrement()] counters. *)
Module Db.
Record t : Type := mk {
    users : list User.t;
    myBooks : list MyBooks.t;
    userSeq : Z;
    myBooksSeq : Z
  }.

Definition empty : t :=
    {| users := []; myBooks := []; userSeq := 1; myBooksSeq := 1 |}.

Definition with_users (us : list User.t) (db : t) : t :=
    {| users := us; myBooks := myBooks db;
       userSeq := userSeq db; myBooksSeq := myBooksSeq db |}.

Definition with_myBooks (bs : list MyBooks.t) (db : t) : t :=
    {| users := users db; myBooks := bs;
       userSeq := userSeq db; myBooksSeq := myBooksSeq db |}.
End Db.

(** An [async] handler: it reads and writes the store and either returns
    or throws. A throw keeps the writes made before it (no transaction). *)
Definition M (A : Type) : Type := Db.t -> (Exception + A) * Db.t.

Definition ret {A : Type} (a : A) : M A := fun db => (inr a, db).

Definition throw {A : Type} (e : Exception) : M A := fun db => (inl e, db).

Definition bind {A B : Type} (m : M A) (k : A -> M B) : M B :=
  fun db =>
    match m db with
    | (inl e, db') => (inl e, db')
    | (inr a, db') => k a db'
    end.

Definition try_catch {A : Type} (m : M A) (handler : Exception -> M A) : M A :=
  fun db =>
    match m db with
    | (inl e, db') => handler e db'
    | (inr a, db') => (inr a, db')
    end.

Notation "x <- m ;; k" := (bind m (fun x => k))
  (at level 61, m at next level, right associativity).

(** [await] of a read-only query. *)
Definition query {A : Type} (f : Db.t -> A) : M A := fun db => (inr (f db), db).

(** A value that may be [undefined] where the callee throws on it. *)
Definition orThrow {A : Type} (e : Exception) (o : option A) : M A :=
  match o with
  | Some a => ret a
  | None => throw e
  end.

(* ===================================================================== *)
(** ** Collaborators                                                      *)
(* ===================================================================== *)

(** [JwtService] of [@nestjs/jwt]: [verifyAsync] answers [None] where the
    library rejects the token (bad signature, expired, malformed). *)
Class JwtService : Type := {
  sign : AccessTokenPayload.t -> SignOptions.t -> string;
  verifyAsync : string -> option AccessTokenPayload.t
}.

(** [bcrypt.hash(data, saltOrRounds)] and [bcrypt.compare(data, encrypted)]. *)
Class Bcrypt : Type := {
  hash : string -> Z -> string;
  compare : string -> string -> bool
}.

(** [axios.get] on [https://www.googleapis.com/books/v1/volumes/${bookId}]:
    the response body, or [None] where axios rejects. *)
Class Catalog : Type := {
  getVolume : string -> option GoogleBook.t
}.

(** Modelled from the spec: [src/user.service.ts] is missing; the Identity
    Store of the spec holds the user records with email uniqueness, and the
    controller queries it by email or by id and creates users. *)
Module UserService.

Inductive UserWhereUniqueInput : Type :=
  | email (e : string)
  | id (i : Z).

Module UserCreateInput.
Record t : Type := mk { name : string; email : string; password : string }.
End UserCreateInput.

Definition matches (where_ : UserWhereUniqueInput) (u : User.t) : bool :=
    match where_ with
    | email e => String.eqb (User.email u) e
    | id i => Z.eqb (User.id u) i
    end.

Definition findOne (where_ : UserWhereUniqueInput) : M (option User.t) :=
    query (fun db => find (matches where_) (Db.users db)).

Definition createUser (data : UserCreateInput.t) : M User.t :=
    fun db =>
      if existsb (matches (email (UserCreateInput.email data))) (Db.users db)
      then (inl (PrismaClientKnownRequestError "P2002"), db)
      else
        let user :=
          {| User.id := Db.userSeq db;
             User.name := Some (UserCreateInput.name data);
             User.email := UserCreateInput.email data;
             User.avatar := None;
             User.password := UserCreateInput.password data |} in
        (inr user,
         {| Db.users := Db.users db ++ [user];
            Db.myBooks := Db.myBooks db;
            Db.userSeq := Db.userSeq db + 1;
            Db.myBooksSeq := Db.myBooksSeq db |}).

End UserService.

(** Modelled from the spec: [src/my-books.service.ts] is missing; the
    Reading-List Store of the spec holds one record per entry, looked up by
    (user, catalog book), updated by entry id and created with the current
    page unset. [now] is the instant of the write ([@default(now())],
    [@updatedAt]). *)
Module MyBooksService.

Module MyBooksWhereInput.
Record t : Type := mk { bookId : string; userId : Z }.
End MyBooksWhereInput.

Module MyBooksWhereUniqueInput.
Record t : Type := mk { id : Z }.
End MyBooksWhereUniqueInput.

  (** [None] is a property absent from [data]: the column is left alone. *)
Module MyBooksUpdateInput.
Record t : Type := mk {
      currentPage : option Z;
      bookState : option BookState
    }.
End MyBooksUpdateInput.

Module MyBooksCreateInput.
Record t : Type := mk {
      bookId : string;
      totalPages : Z;
      bookState : BookState;
      user_connect_id : Z;
      book : GoogleBook.t
    }.
End MyBooksCreateInput.

Definition matches (where_ : MyBooksWhereInput.t) (b : MyBooks.t) : bool :=
    String.eqb (MyBooks.bookId b) (MyBooksWhereInput.bookId where_)
    && Z.eqb (MyBooks.userId b) (MyBooksWhereInput.userId where_).

Definition findOne (where_ : MyBooksWhereInput.t) : M (option MyBooks.t) :=
    query (fun db => find (matches where_) (Db.myBooks db)).

Definition apply_update (now : Z) (data : MyBooksUpdateInput.t)
      (b : MyBooks.t) : MyBooks.t :=
    {| MyBooks.id := MyBooks.id b;
       MyBooks.userId := MyBooks.userId b;
       MyBooks.bookId := MyBooks.bookId b;
       MyBooks.bookState :=
         match MyBooksUpdateInput.bookState data with
         | Some s => s
         | None => MyBooks.bookState b
         end;
       MyBooks.currentPage :=
         match MyBooksUpdateInput.currentPage data with
         | Some p => Some p
         | None => MyBooks.currentPage b
         end;
       MyBooks.totalPages := MyBooks.totalPages b;
       MyBooks.book := MyBooks.book b;
       MyBooks.createdAt := MyBooks.createdAt b;
       MyBooks.updatedAt := now |}.

  (** The row whose [id] is [i] is rewritten where it stands. *)
Fixpoint update_row (i : Z) (f : MyBooks.t -> MyBooks.t)
      (rows : list MyBooks.t) : option (MyBooks.t * list MyBooks.t) :=
    match rows with
    | [] => None
    | r :: rows' =>
        if Z.eqb (MyBooks.id r) i then Some (f r, f r :: rows')
        else
          match update_row i f rows' with
          | Some (r', rows'') => Some (r', r :: rows'')
          | None => None
          end
    end.

Definition updateMyBook (now : Z) (where_ : MyBooksWhereUniqueInput.t)
      (data : MyBooksUpdateInput.t) : M MyBooks.t :=
    fun db =>
      match update_row (MyBooksWhereUniqueInput.id where_)
                       (apply_update now data) (Db.myBooks db) with
      | Some (r, rows) => (inr r, Db.with_myBooks rows db)
      | None => (inl (PrismaClientKnownRequestError "P2025"), db)
      end.

Definition createMyBook (now : Z) (data : MyBooksCreateInput.t) : M MyBooks.t :=
    fun db =>
      if existsb
           (fun u => Z.eqb (User.id u) (MyBooksCreateInput.user_connect_id data))
           (Db.users db)
      then
        let row :=
          {| MyBooks.id := Db.myBooksSeq db;
             MyBooks.userId := MyBooksCreateInput.user_connect_id data;
             MyBooks.bookId := MyBooksCreateInput.bookId data;
             MyBooks.bookState := MyBooksCreateInput.bookState data;
             MyBooks.currentPage := None;
             MyBooks.totalPages := MyBooksCreateInput.totalPages data;
             MyBooks.book := MyBooksCreateInput.book data;
             MyBooks.createdAt := now;
             MyBooks.updatedAt := now |} in
        (inr row,
         {| Db.users := Db.users db;
            Db.myBooks := Db.myBooks db ++ [row];
            Db.userSeq := Db.userSeq db;
            Db.myBooksSeq := Db.myBooksSeq db + 1 |})
      else (inl (PrismaClientKnownRequestError "P2025"), db).

(** [findAll({ where: { userId } })]: the user's rows, in store order. *)
Definition findAll (where_userId : Z) : M (list MyBooks.t) :=
  query (fun db =>
           filter (fun b => Z.eqb (MyBooks.userId b) where_userId)
                  (Db.myBooks db)).

End MyBooksService.

(** [String.prototype.split(' ')]: one piece per separator, empty pieces
    kept. *)
Fixpoint split_space (s : string) : list string :=
  match s with
  | EmptyString => [EmptyString]
  | String c s' =>
      if Ascii.eqb c " "%char then EmptyString :: split_space s'
      else
        match split_space s' with
        | w :: ws => String c w :: ws
        | [] => [String c EmptyString]
        end
  end.

(** [Array.prototype.indexOf(x) === -1]. *)
Definition indexOf_is_minus1 (x : string) (l : list string) : bool :=
  negb (existsb (String.eqb x) l).

(* ===================================================================== *)
(** ** [class AppController]                                              *)
(* ===================================================================== *)

Section AppController.

Context {jwtService : JwtService} {bcrypt : Bcrypt} {axios : Catalog}.

  (** The instant at which the store performs the request's writes. *)
Variable now : Z.

  (** [POST user/signin] *)
Definition signin (body : SignInBody.t) : M SignInResponse.t :=
    user <- UserService.findOne (UserService.email (SignInBody.email body)) ;;
    match user with
    | None => throw (UnauthorizedException "Invalid credentials")
    | Some user =>
        let isSamePassword :=
          compare (SignInBody.password body) (User.password user) in
        if negb isSamePassword
        then throw (UnauthorizedException "Invalid credentials")
        else
          let refreshToken :=
            sign {| AccessTokenPayload.scope := ["refreshToken"];
                    AccessTokenPayload.userId := User.id user |}
                 {| SignOptions.expiresIn := "3 hours" |} in
          let accessToken :=
            sign {| AccessTokenPayload.scope := ["accessToken"];
                    AccessTokenPayload.userId := User.id user |}
                 {| SignOptions.expiresIn := "1 hour" |} in
          ret {| SignInResponse.user := delete_password user;
                 SignInResponse.accessToken := accessToken;
                 SignInResponse.refreshToken := refreshToken |}
    end.

  (** [POST user/signup] *)
Definition signup (body : SignUpBody.t) : M SignUpResponse.t :=
    userAlreadyExists <-
      UserService.findOne (UserService.email (SignUpBody.email body)) ;;
    match userAlreadyExists with
    | Some _ => throw (BadRequestException "User already exists")
    | None =>
        let saltOrRounds := 10 in
        let hashPassword := hash (SignUpBody.password body) saltOrRounds in
        user <- UserService.createUser
                  {| UserService.UserCreateInput.name := SignUpBody.name body;
                     UserService.UserCreateInput.email := SignUpBody.email body;
                     UserService.UserCreateInput.password := hashPassword |} ;;
        ret {| SignUpResponse.user := delete_password user |}
    end.

  (** [POST user/refresh] *)
Definition refresh (header : RefreshHeaders.t) : M RefreshResponse.t :=
    let authorization := RefreshHeaders.authorization header in
    let token := nth_error (split_space authorization) 1 in
    try_catch
      (payload <- orThrow (Error "") (match token with
                                      | Some t => verifyAsync t
                                      | None => None
                                      end) ;;
       if indexOf_is_minus1 "refreshToken" (AccessTokenPayload.scope payload)
       then throw (Error "")
       else
         user <- UserService.findOne
                   (UserService.id (AccessTokenPayload.userId payload)) ;;
         match user with
         | None => throw (Error "")
         | Some user =>
             let refreshToken :=
               sign {| AccessTokenPayload.scope := ["refreshToken"];
                       AccessTokenPayload.userId := User.id user |}
                    {| SignOptions.expiresIn := "1 minute" |} in
             let accessToken :=
               sign {| AccessTokenPayload.scope := ["accessToken"];
                       AccessTokenPayload.userId := User.id user |}
                    {| SignOptions.expiresIn := "30 second" |} in
             ret {| RefreshResponse.accessToken := accessToken;
                    RefreshResponse.refreshToken := refreshToken |}
         end)
      (fun error => throw (UnauthorizedException "Cannot refresh session")).

  (** [POST /books/my-books] *)
Definition addToMyBooks (req : AuthRequest.t) (body : AddToMyBooksBody.t)
      : M MyBooks.t :=
    let bookId := AddToMyBooksBody.bookId body in
    let bookState := AddToMyBooksBody.bookState body in
    let userId := AuthRequest.userId req in
    isBookAlreadyExists <-
      MyBooksService.findOne
        {| MyBooksService.MyBooksWhereInput.bookId := bookId;
           MyBooksService.MyBooksWhereInput.userId := userId |} ;;
    match isBookAlreadyExists with
    | Some isBookAlreadyExists =>
        myBookUpdate <-
          MyBooksService.updateMyBook now
            {| MyBooksService.MyBooksWhereUniqueInput.id :=
                 MyBooks.id isBookAlreadyExists |}
            {| MyBooksService.MyBooksUpdateInput.currentPage := None;
               MyBooksService.MyBooksUpdateInput.bookState := Some bookState |} ;;
        ret myBookUpdate
    | None =>
        response <- orThrow AxiosError (getVolume bookId) ;;
        let book := response in
        myBook <-
          MyBooksService.createMyBook now
            {| MyBooksService.MyBooksCreateInput.bookId := bookId;
               MyBooksService.MyBooksCreateInput.totalPages :=
                 VolumeInfo.pageCount (GoogleBook.volumeInfo response);
               MyBooksService.MyBooksCreateInput.bookState := bookState;
               MyBooksService.MyBooksCreateInput.user_connect_id := userId;
               MyBooksService.MyBooksCreateInput.book := book |} ;;
        ret myBook
    end.

  (** [PUT /books/:id/reading] *)
Definition updateBookReading (params : UpdateBookReadingParams.t)
      (body : UpdateBookReadingBody.t) (req : AuthRequest.t) : M MyBooks.t :=
    let id := UpdateBookReadingParams.id params in
    let page := UpdateBookReadingBody.page body in
    let userId := AuthRequest.userId req in
    isBookAlreadyExists <-
      MyBooksService.findOne
        {| MyBooksService.MyBooksWhereInput.bookId := id;
           MyBooksService.MyBooksWhereInput.userId := userId |} ;;
    match isBookAlreadyExists with
    | None => throw (Error "Cannot update reading position")
    | Some isBookAlreadyExists =>
        let isPageGreaterThanTotalPage :=
          Z.geb page (MyBooks.totalPages isBookAlreadyExists) in
        myBookUpdated <-
          MyBooksService.updateMyBook now
            {| MyBooksService.MyBooksWhereUniqueInput.id :=
                 MyBooks.id isBookAlreadyExists |}
            {| MyBooksService.MyBooksUpdateInput.currentPage :=
                 Some (if isPageGreaterThanTotalPage
                       then MyBooks.totalPages isBookAlreadyExists
                       else page);
               MyBooksService.MyBooksUpdateInput.bookState :=
                 Some (if isPageGreaterThanTotalPage
                       then READ
                       else MyBooks.bookState isBookAlreadyExists) |} ;;
        ret myBookUpdated
    end.

(** [GET /books/:bookId] *)
Definition bookDetails (params : BookDetailsParams.t) (req : AuthRequest.t)
    : M BookDetailsResponse.t :=
  let bookId := BookDetailsParams.bookId params in
  let userId := AuthRequest.userId req in
  response <- orThrow AxiosError (getVolume bookId) ;;
  book <-
    MyBooksService.findOne
      {| MyBooksService.MyBooksWhereInput.bookId := bookId;
         MyBooksService.MyBooksWhereInput.userId := userId |} ;;
  ret {| BookDetailsResponse.data := response;
         BookDetailsResponse.bookState :=
           match book with
           | Some book => Some (MyBooks.bookState book)
           | None => None
           end |}.

(** [GET /my-books] *)
Definition myBooks (req : AuthRequest.t) : M MyBooksResponse.t :=
  let userId := AuthRequest.userId req in
  books <- MyBooksService.findAll userId ;;
  let isReading :=
    filter (fun book => BookState_eqb (MyBooks.bookState book) IS_READING)
           books in
  let read :=
    filter (fun book => BookState_eqb (MyBooks.bookState book) READ) books in
  let wantsToRead :=
    filter (fun book => BookState_eqb (MyBooks.bookState book) WANTS_TO_READ)
           books in
  ret {| MyBooksResponse.isReading := isReading;
         MyBooksResponse.read := read;
         MyBooksResponse.wantsToRead := wantsToRead |}.

End AppController.

(* ===================================================================== *)
(** ** Validity periods                                                   *)
(* ===================================================================== *)

(** [expiresIn] strings are read by the [ms] package, whose result in
    milliseconds jsonwebtoken divides by 1000 and adds to the issue time.
    Here: an unsigned whole number, spaces, and a unit of the second,
    minute or hour family (no unit means milliseconds). *)
Definition digit_of (c : ascii) : option Z :=
  let n := Z.of_nat (nat_of_ascii c) in
  if Z.leb 48 n && Z.leb n 57 then Some (n - 48) else None.

Fixpoint read_number (acc : option Z) (s : string) : option Z * string :=
  match s with
  | EmptyString => (acc, s)
  | String c s' =>
      match digit_of c with
      | Some d =>
          read_number
            (Some (10 * match acc with Some a => a | None => 0 end + d)) s'
      | None => (acc, s)
      end
  end.

Fixpoint skip_spaces (s : string) : string :=
  match s with
  | String c s' => if Ascii.eqb c " "%char then skip_spaces s' else s
  | EmptyString => s
  end.

Definition unit_ms (u : string) : option Z :=
  if existsb (String.eqb u) ["hours"; "hour"; "hrs"; "hr"; "h"]
  then Some 3600000
  else if existsb (String.eqb u) ["minutes"; "minute"; "mins"; "min"; "m"]
  then Some 60000
  else if existsb (String.eqb u) ["seconds"; "second"; "secs"; "sec"; "s"]
  then Some 1000
  else if existsb (String.eqb u) ["milliseconds"; "millisecond"; "msecs";
                                  "msec"; "ms"; ""]
  then Some 1
  else None.

Definition ms (s : string) : option Z :=
  match read_number None s with
  | (Some n, rest) =>
      match unit_ms (skip_spaces rest) with
      | Some u => Some (n * u)
      | None => None
      end
  | (None, _) => None
  end.

(** Seconds of validity that [sign] gives a token: [exp - iat]. *)
Definition timespan (options : SignOptions.t) : option Z :=
  match ms (SignOptions.expiresIn options) with
  | Some m => Some (m / 1000)
  | None => None
  end.

(* ===================================================================== *)
(** ** Store properties                                                   *)
(* ===================================================================== *)

(** [id Int @default(autoincrement()) @id] on [MyBooks]: the ids in the
    table are pairwise distinct and below the counter. *)
Definition wf_db (db : Db.t) : Prop :=
  NoDup (map MyBooks.id (Db.myBooks db))
  /\ Forall (fun b => MyBooks.id b < Db.myBooksSeq db) (Db.myBooks db).

(** The page invariant of the data model, on one entry. *)
Definition page_le_total (b : MyBooks.t) : Prop :=
  match MyBooks.currentPage b with
  | Some c => c <= MyBooks.totalPages b
  | None => True
  end.

Definition page_invariant (b : MyBooks.t) : Prop :=
  match MyBooks.currentPage b with
  | Some c => 0 <= c <= MyBooks.totalPages b
  | None => True
  end.

(** The [where] and [data] arguments the two reading-list handlers build. *)
Definition reading_data (page : Z) (e : MyBooks.t)
    : MyBooksService.MyBooksUpdateInput.t :=
  {| MyBooksService.MyBooksUpdateInput.currentPage :=
       Some (if Z.geb page (MyBooks.totalPages e)
             then MyBooks.totalPages e else page);
     MyBooksService.MyBooksUpdateInput.bookState :=
       Some (if Z.geb page (MyBooks.totalPages e)
             then READ else MyBooks.bookState e) |}.

Definition state_data (s : BookState) : MyBooksService.MyBooksUpdateInput.t :=
  {| MyBooksService.MyBooksUpdateInput.currentPage := None;
     MyBooksService.MyBooksUpdateInput.bookState := Some s |}.

Definition where_of (userId : Z) (bookId : string)
    : MyBooksService.MyBooksWhereInput.t :=
  {| MyBooksService.MyBooksWhereInput.bookId := bookId;
     MyBooksService.MyBooksWhereInput.userId := userId |}.

(** The entries that do not belong to the pair (userId, bookId). *)
Definition other_entries (userId : Z) (bookId : string) (db : Db.t)
    : list MyBooks.t :=
  filter
    (fun b => negb (MyBooksService.matches (where_of userId bookId) b))
    (Db.myBooks db).

(** One request's effect on the store, as seen from the pair [where_]:
    nothing, one row of the pair appended under the next id, or one row of
    the pair rewritten where it stands with its id and total pages kept. *)
Inductive write_step (where_ : MyBooksService.MyBooksWhereInput.t)
    (db : Db.t) : Db.t -> Prop :=
| step_none : write_step where_ db db
| step_create (row : MyBooks.t) :
    MyBooksService.matches where_ row = true ->
    MyBooks.id row = Db.myBooksSeq db ->
    write_step where_ db
      {| Db.users := Db.users db;
         Db.myBooks := Db.myBooks db ++ [row];
         Db.userSeq := Db.userSeq db;
         Db.myBooksSeq := Db.myBooksSeq db + 1 |}
| step_update (l1 l2 : list MyBooks.t) (e e' : MyBooks.t) :
    Db.myBooks db = (l1 ++ e :: l2)%list ->
    MyBooksService.matches where_ e = true ->
    MyBooksService.matches where_ e' = true ->
    MyBooks.id e' = MyBooks.id e ->
    MyBooks.totalPages e' = MyBooks.totalPages e ->
    write_step where_ db (Db.with_myBooks (l1 ++ e' :: l2)%list db).

(** The credential a refresh request presents: the second piece of the
    [Authorization] header, as the JWT service decodes it. *)
Definition presented {jwtService : JwtService} (header : RefreshHeaders.t)
    : option AccessTokenPayload.t :=
  match nth_error (split_space (RefreshHeaders.authorization header)) 1 with
  | Some t => verifyAsync t
  | None => None
  end.

(** The pair [refresh] answers with, and the response of [signin]. *)
Definition reissued {jwtService : JwtService} (user : User.t)
    : RefreshResponse.t :=
  {| RefreshResponse.accessToken :=
       sign {| AccessTokenPayload.scope := ["accessToken"];
               AccessTokenPayload.userId := User.id user |}
            {| SignOptions.expiresIn := "30 second" |};
     RefreshResponse.refreshToken :=
       sign {| AccessTokenPayload.scope := ["refreshToken"];
               AccessTokenPayload.userId := User.id user |}
            {| SignOptions.expiresIn := "1 minute" |} |}.

Definition issued {jwtService : JwtService} (user : User.t)
    : SignInResponse.t :=
  {| SignInResponse.user := delete_password user;
     SignInResponse.accessToken :=
       sign {| AccessTokenPayload.scope := ["accessToken"];
               AccessTokenPayload.userId := User.id user |}
            {| SignOptions.expiresIn := "1 hour" |};
     SignInResponse.refreshToken :=
       sign {| AccessTokenPayload.scope := ["refreshToken"];
               AccessTokenPayload.userId := User.id user |}
            {| SignOptions.expiresIn := "3 hours" |} |}.

(* ===================================================================== *)
(** ** A concrete world, for running the handlers                         *)
(* ===================================================================== *)

Module Fixture.

#[local] Instance jwt : JwtService := {
    sign p o :=
      String.concat "," (AccessTokenPayload.scope p) ++ "/"
      ++ SignOptions.expiresIn o;
    verifyAsync t :=
      if String.eqb t "refresh-of-1"
      then Some {| AccessTokenPayload.scope := ["refreshToken"];
                   AccessTokenPayload.userId := 1 |}
      else if String.eqb t "access-of-1"
      then Some {| AccessTokenPayload.scope := ["accessToken"];
                   AccessTokenPayload.userId := 1 |}
      else if String.eqb t "refresh-of-9"
      then Some {| AccessTokenPayload.scope := ["refreshToken"];
                   AccessTokenPayload.userId := 9 |}
      else None
  }.

#[local] Instance bcrypt : Bcrypt := {
    hash data rounds := "$2b$10$" ++ data;
    compare data encrypted := String.eqb encrypted ("$2b$10$" ++ data)
  }.

Definition B1 : GoogleBook.t :=
    {| GoogleBook.id := "B1";
       GoogleBook.volumeInfo :=
         {| VolumeInfo.title := "Book one";
            VolumeInfo.subtitle := "";
            VolumeInfo.description := "";
            VolumeInfo.imageLinks := None;
            VolumeInfo.pageCount := 300 |} |}.

#[local] Instance axios : Catalog := {
    getVolume bookId := if String.eqb bookId "B1" then Some B1 else None
  }.

Definition ana : User.t :=
    {| User.id := 1; User.name := Some "Ana"; User.email := "ana@dev.books";
       User.avatar := None; User.password := "$2b$10$s3cret" |}.

Definition entry1 : MyBooks.t :=
    {| MyBooks.id := 1; MyBooks.userId := 1; MyBooks.bookId := "B1";
       MyBooks.bookState := WANTS_TO_READ; MyBooks.currentPage := Some 150;
       MyBooks.totalPages := 300; MyBooks.book := B1;
       MyBooks.createdAt := 10; MyBooks.updatedAt := 20 |}.

  (** One user, no entry. *)
Definition db0 : Db.t :=
    {| Db.users := [ana]; Db.myBooks := []; Db.userSeq := 2;
       Db.myBooksSeq := 1 |}.

  (** One user with one entry for "B1", at page 150 of 300. *)
Definition db1 : Db.t :=
    {| Db.users := [ana]; Db.myBooks := [entry1]; Db.userSeq := 2;
       Db.myBooksSeq := 2 |}.

Definition req1 : AuthRequest.t := {| AuthRequest.userId := 1 |}.

(** [db1] after the user changed the password to "0ther". *)
Definition db2 : Db.t :=
  {| Db.users :=
       [{| User.id := 1; User.name := Some "Ana";
           User.email := "ana@dev.books"; User.avatar := None;
           User.password := "$2b$10$0ther" |}];
     Db.myBooks := [entry1]; Db.userSeq := 2; Db.myBooksSeq := 2 |}.

End Fixture.

(* ===================================================================== *)
(** ** Further store properties and request runs                          *)
(* ===================================================================== *)

(** The key the reading-list handlers look entries up by. *)
Definition pair_of (b : MyBooks.t) : Z * string :=
  (MyBooks.userId b, MyBooks.bookId b).

(** At most one entry per (userId, bookId): the schema does not ask for
    it, the handlers keep it. *)
Definition unique_pairs (db : Db.t) : Prop :=
  NoDup (map pair_of (Db.myBooks db)).

(** [email String @unique]. *)
Definition unique_emails (db : Db.t) : Prop :=
  NoDup (map User.email (Db.users db)).

Fixpoint no_space (s : string) : bool :=
  match s with
  | EmptyString => true
  | String c s' => negb (Ascii.eqb c " "%char) && no_space s'
  end.

(** The group of a [GET /my-books] answer that lists a given state. *)
Definition group (s : BookState) (r : MyBooksResponse.t) : list MyBooks.t :=
  match s with
  | IS_READING => MyBooksResponse.isReading r
  | READ => MyBooksResponse.read r
  | WANTS_TO_READ => MyBooksResponse.wantsToRead r
  end.

(** One user's progress reports on one book, one request after the other;
    the store after the last one. *)
Fixpoint report_pages (now : Z) (params : UpdateBookReadingParams.t)
    (req : AuthRequest.t) (pages : list Z) (db : Db.t) : Db.t :=
  match pages with
  | [] => db
  | page :: pages' =>
      report_pages now params req pages'
        (snd (updateBookReading now params
                {| UpdateBookReadingBody.page := page |} req db))
  end.

(** The requests that write, each with the instant it is served at. *)
Inductive Request : Type :=
| PostSignup (body : SignUpBody.t)
| PostMyBooks (now : Z) (req : AuthRequest.t) (body : AddToMyBooksBody.t)
| PutReading (now : Z) (params : UpdateBookReadingParams.t)
             (body : UpdateBookReadingBody.t) (req : AuthRequest.t).

Definition serve {bcrypt : Bcrypt} {axios : Catalog} (r : Request)
    (db : Db.t) : Db.t :=
  match r with
  | PostSignup body => snd (signup body db)
  | PostMyBooks now req body => snd (addToMyBooks now req body db)
  | PutReading now params body req =>
      snd (updateBookReading now params body req db)
  end.

Definition serve_all {bcrypt : Bcrypt} {axios : Catalog}
    (rs : list Request) (db : Db.t) : Db.t :=
  fold_left (fun db r => serve r db) rs db.

(** A JWT service whose tokens carry no space and decode to what was
    signed, for the user with id 1. *)
Module Tokens.

#[local] Instance jwt : JwtService := {
  sign p o := String.concat "," (AccessTokenPayload.scope p) ++ "-of-1";
  verifyAsync t :=
    if String.eqb t "refreshToken-of-1"
    then Some {| AccessTokenPayload.scope := ["refreshToken"];
                 AccessTokenPayload.userId := 1 |}
    else if String.eqb t "accessToken-of-1"
    then Some {| AccessTokenPayload.scope := ["accessToken"];
                 AccessTokenPayload.userId := 1 |}
    else None
}.

End Tokens.

(** What every store the handlers can build satisfies. *)
Definition store_invariant (db : Db.t) : Prop :=
  wf_db db
  /\ unique_pairs db
  /\ unique_emails db
  /\ Forall page_le_total (Db.myBooks db).

(* ===================================================================== *)
(** ** Lemmas on the store services                                       *)
(* ===================================================================== *)

Import MyBooksService.
Open Scope list_scope.

Lemma findOne_run (where_ : MyBooksWhereInput.t) (db : Db.t) :
  findOne where_ db = (inr (find (matches where_) (Db.myBooks db)), db).
Proof. reflexivity. Qed.

Lemma findOne_Some_In (where_ : MyBooksWhereInput.t) (db : Db.t)
    (e : MyBooks.t) :
  findOne where_ db = (inr (Some e), db) ->
  In e (Db.myBooks db) /\ matches where_ e = true.
Proof.
  rewrite findOne_run. intros H.
  assert (Hf : find (matches where_) (Db.myBooks db) = Some e) by congruence.
  now apply find_some in Hf.
Qed.

Lemma apply_update_keeps_key (now : Z) (data : MyBooksUpdateInput.t)
    (where_ : MyBooksWhereInput.t) (b : MyBooks.t) :
  matches where_ (apply_update now data b) = matches where_ b.
Proof. reflexivity. Qed.

Lemma apply_update_id (now : Z) (data : MyBooksUpdateInput.t) (b : MyBooks.t) :
  MyBooks.id (apply_update now data b) = MyBooks.id b.
Proof. reflexivity. Qed.

(** With distinct ids, the update by id rewrites exactly the given row. *)
Lemma update_row_found (f : MyBooks.t -> MyBooks.t) (rows : list MyBooks.t)
    (e : MyBooks.t) :
  NoDup (map MyBooks.id rows) -> In e rows ->
  exists l1 l2,
    rows = l1 ++ e :: l2
    /\ update_row (MyBooks.id e) f rows = Some (f e, l1 ++ f e :: l2).
Proof.
  induction rows as [|a rows IH]; intros Hnd Hin; [now inversion Hin|].
  inversion Hnd as [|? ? Hnotin Hnd']; subst.
  destruct Hin as [->|Hin].
  - exists [], rows. simpl. now rewrite Z.eqb_refl.
  - destruct (IH Hnd' Hin) as (l1 & l2 & Hrows & Hupd).
    exists (a :: l1), l2. simpl.
    destruct (Z.eqb_spec (MyBooks.id a) (MyBooks.id e)) as [Heq|Hne].
    + exfalso. apply Hnotin. rewrite Heq. now apply in_map.
    + rewrite Hupd. now rewrite Hrows at 1.
Qed.

(** Whatever the ids, an update by id rewrites one row or fails. *)
Lemma update_row_shape (i : Z) (f : MyBooks.t -> MyBooks.t)
    (rows : list MyBooks.t) :
  match update_row i f rows with
  | Some (r, rows') =>
      exists l1 e l2,
        rows = l1 ++ e :: l2 /\ rows' = l1 ++ f e :: l2 /\ r = f e
        /\ MyBooks.id e = i
  | None => True
  end.
Proof.
  induction rows as [|a rows IH]; simpl; [exact I|].
  destruct (Z.eqb_spec (MyBooks.id a) i) as [Heq|Hne].
  - now exists [], a, rows.
  - destruct (update_row i f rows) as [[r rows']|]; [|exact I].
    destruct IH as (l1 & e & l2 & -> & -> & -> & Hid).
    now exists (a :: l1), e, l2.
Qed.

Lemma updateMyBook_found (now : Z) (data : MyBooksUpdateInput.t) (db : Db.t)
    (e : MyBooks.t) :
  wf_db db -> In e (Db.myBooks db) ->
  exists l1 l2,
    Db.myBooks db = l1 ++ e :: l2
    /\ updateMyBook now {| MyBooksWhereUniqueInput.id := MyBooks.id e |} data db
       = (inr (apply_update now data e),
          Db.with_myBooks (l1 ++ apply_update now data e :: l2) db).
Proof.
  intros [Hnd _] Hin.
  destruct (update_row_found (apply_update now data) _ e Hnd Hin)
    as (l1 & l2 & Hrows & Hupd).
  exists l1, l2. split; [exact Hrows|].
  unfold updateMyBook. simpl. now rewrite Hupd.
Qed.

Lemma updateBookReading_found (now : Z) (params : UpdateBookReadingParams.t)
    (body : UpdateBookReadingBody.t) (req : AuthRequest.t) (db : Db.t)
    (e : MyBooks.t) :
  wf_db db ->
  findOne (where_of (AuthRequest.userId req) (UpdateBookReadingParams.id params))
          db = (inr (Some e), db) ->
  exists l1 l2,
    Db.myBooks db = l1 ++ e :: l2
    /\ updateBookReading now params body req db
       = (inr (apply_update now
                 (reading_data (UpdateBookReadingBody.page body) e) e),
          Db.with_myBooks
            (l1 ++ apply_update now
                     (reading_data (UpdateBookReadingBody.page body) e) e
                :: l2) db).
Proof.
  intros Hwf Hfind.
  destruct (findOne_Some_In _ _ _ Hfind) as [Hin _].
  destruct (updateMyBook_found now
              (reading_data (UpdateBookReadingBody.page body) e) db e Hwf Hin)
    as (l1 & l2 & Hrows & Hupd).
  exists l1, l2. split; [exact Hrows|].
  unfold updateBookReading, bind. unfold where_of in Hfind. rewrite Hfind.
  unfold reading_data in Hupd. now rewrite Hupd.
Qed.

Lemma updateBookReading_missing (now : Z) (params : UpdateBookReadingParams.t)
    (body : UpdateBookReadingBody.t) (req : AuthRequest.t) (db : Db.t) :
  findOne (where_of (AuthRequest.userId req) (UpdateBookReadingParams.id params))
          db = (inr None, db) ->
  updateBookReading now params body req db
  = (inl (Error "Cannot update reading position"), db).
Proof.
  intros Hfind. unfold updateBookReading, bind.
  unfold where_of in Hfind. now rewrite Hfind.
Qed.

Lemma wf_db_empty : wf_db Db.empty.
Proof. split; simpl; constructor. Qed.

Lemma wf_db0 : wf_db Fixture.db0.
Proof. split; simpl; constructor. Qed.

Lemma wf_db1 : wf_db Fixture.db1.
Proof.
  split; simpl.
  - constructor; [intros []|constructor].
  - constructor; [simpl; lia|constructor].
Qed.

(* ===================================================================== *)
(** ** RecordProgress: [PUT /books/:id/reading]                           *)
(* ===================================================================== *)

(** C1. For an existing entry [e] of the pair and any reported page, the
    handler returns and stores an updated entry: when the page is at or
    past [totalPages] its current page is [totalPages] and its state is
    READ; otherwise its current page is the reported page and its state is
    the state [e] had. *)
Theorem updateBookReading_clamps_and_transitions
    (now : Z) (params : UpdateBookReadingParams.t)
    (body : UpdateBookReadingBody.t) (req : AuthRequest.t) (db : Db.t)
    (e : MyBooks.t) :
  wf_db db ->
  findOne (where_of (AuthRequest.userId req) (UpdateBookReadingParams.id params))
          db = (inr (Some e), db) ->
  exists e' db',
    updateBookReading now params body req db = (inr e', db')
    /\ In e' (Db.myBooks db')
    /\ MyBooks.id e' = MyBooks.id e
    /\ (UpdateBookReadingBody.page body >= MyBooks.totalPages e ->
        MyBooks.currentPage e' = Some (MyBooks.totalPages e)
        /\ MyBooks.bookState e' = READ)
    /\ (UpdateBookReadingBody.page body < MyBooks.totalPages e ->
        MyBooks.currentPage e' = Some (UpdateBookReadingBody.page body)
        /\ MyBooks.bookState e' = MyBooks.bookState e).
Proof.
  intros Hwf Hfind.
  destruct (updateBookReading_found now params body req db e Hwf Hfind)
    as (l1 & l2 & _ & Hrun).
  eexists _, _. split; [exact Hrun|].
  split; [simpl; apply in_elt|].
  split; [reflexivity|].
  simpl. split; intros Hp.
  - destruct (Z.geb_spec (UpdateBookReadingBody.page body) (MyBooks.totalPages e));
      [now split|lia].
  - destruct (Z.geb_spec (UpdateBookReadingBody.page body) (MyBooks.totalPages e));
      [lia|now split].
Qed.

Lemma updateBookReading_clamps_and_transitions_witness :
  exists e' db',
    updateBookReading 99 {| UpdateBookReadingParams.id := "B1" |}
      {| UpdateBookReadingBody.page := 500 |} Fixture.req1 Fixture.db1
    = (inr e', db')
    /\ In e' (Db.myBooks db')
    /\ MyBooks.id e' = 1
    /\ (500 >= 300 ->
        MyBooks.currentPage e' = Some 300 /\ MyBooks.bookState e' = READ)
    /\ (500 < 300 ->
        MyBooks.currentPage e' = Some 500
        /\ MyBooks.bookState e' = WANTS_TO_READ).
Proof.
  exact (updateBookReading_clamps_and_transitions 99
           {| UpdateBookReadingParams.id := "B1" |}
           {| UpdateBookReadingBody.page := 500 |} Fixture.req1 Fixture.db1
           Fixture.entry1 wf_db1 eq_refl).
Defined.

(** C3 (a defect of the code). On the store with one entry, for "B1", a
    progress report by the same user on "B2" finds no entry: the handler
    writes nothing, but what it throws is the plain [Error] "Cannot update
    reading position", not one of the HTTP exceptions the other handlers
    throw, so the caller is answered with status 500 and not with a
    not-found error (404). *)
Theorem updateBookReading_missing_entry_is_plain_error :
  findOne (where_of 1 "B2") Fixture.db1 = (inr None, Fixture.db1)
  /\ updateBookReading 99 {| UpdateBookReadingParams.id := "B2" |}
       {| UpdateBookReadingBody.page := 10 |} Fixture.req1 Fixture.db1
     = (inl (Error "Cannot update reading position"), Fixture.db1)
  /\ getStatus (Error "Cannot update reading position") = 500
  /\ getStatus (Error "Cannot update reading position") <> 404.
Proof.
  split; [reflexivity|]. split.
  - now apply updateBookReading_missing.
  - split; [reflexivity|discriminate].
Qed.

(** C5. After a progress report on an existing entry, whatever the page
    reported, the entry returned and stored has its current page set and
    at most its total pages. *)
Theorem updateBookReading_page_le_total
    (now : Z) (params : UpdateBookReadingParams.t)
    (body : UpdateBookReadingBody.t) (req : AuthRequest.t) (db : Db.t)
    (e : MyBooks.t) :
  wf_db db ->
  findOne (where_of (AuthRequest.userId req) (UpdateBookReadingParams.id params))
          db = (inr (Some e), db) ->
  exists e' db' c,
    updateBookReading now params body req db = (inr e', db')
    /\ In e' (Db.myBooks db')
    /\ MyBooks.id e' = MyBooks.id e
    /\ MyBooks.currentPage e' = Some c
    /\ c <= MyBooks.totalPages e'.
Proof.
  intros Hwf Hfind.
  destruct (updateBookReading_found now params body req db e Hwf Hfind)
    as (l1 & l2 & _ & Hrun).
  eexists _, _, _. split; [exact Hrun|].
  split; [simpl; apply in_elt|].
  split; [reflexivity|].
  split; [reflexivity|].
  simpl.
  destruct (Z.geb_spec (UpdateBookReadingBody.page body) (MyBooks.totalPages e));
    lia.
Qed.

Lemma updateBookReading_page_le_total_witness :
  exists e' db' c,
    updateBookReading 99 {| UpdateBookReadingParams.id := "B1" |}
      {| UpdateBookReadingBody.page := 100000 |} Fixture.req1 Fixture.db1
    = (inr e', db')
    /\ In e' (Db.myBooks db')
    /\ MyBooks.id e' = 1
    /\ MyBooks.currentPage e' = Some c
    /\ c <= MyBooks.totalPages e'.
Proof.
  exact (updateBookReading_page_le_total 99
           {| UpdateBookReadingParams.id := "B1" |}
           {| UpdateBookReadingBody.page := 100000 |} Fixture.req1 Fixture.db1
           Fixture.entry1 wf_db1 eq_refl).
Defined.

(* ===================================================================== *)
(** ** AddOrUpdateBook: [POST /books/my-books]                            *)
(* ===================================================================== *)

Section AddToMyBooks.

Context {axios : Catalog}.
Variables (now : Z) (req : AuthRequest.t) (body : AddToMyBooksBody.t).

Local Abbreviation userId := (AuthRequest.userId req).
Local Abbreviation bookId := (AddToMyBooksBody.bookId body).
Local Abbreviation bookState := (AddToMyBooksBody.bookState body).

Lemma addToMyBooks_found (db : Db.t) (e : MyBooks.t) :
    wf_db db ->
    findOne (where_of userId bookId) db = (inr (Some e), db) ->
    exists l1 l2,
      Db.myBooks db = l1 ++ e :: l2
      /\ addToMyBooks now req body db
         = (inr (apply_update now (state_data bookState) e),
            Db.with_myBooks
              (l1 ++ apply_update now (state_data bookState) e :: l2) db).
Proof.
    intros Hwf Hfind.
    destruct (findOne_Some_In _ _ _ Hfind) as [Hin _].
    destruct (updateMyBook_found now (state_data bookState) db e Hwf Hin)
      as (l1 & l2 & Hrows & Hupd).
    exists l1, l2. split; [exact Hrows|].
    unfold addToMyBooks, bind. unfold where_of in Hfind.
    rewrite Hfind.
    unfold state_data in Hupd. now rewrite Hupd.
Qed.

Lemma user_connect_ok (db : Db.t) :
    In userId (map User.id (Db.users db)) ->
    existsb (fun u => Z.eqb (User.id u) userId) (Db.users db) = true.
Proof.
    intros Hin. apply in_map_iff in Hin. destruct Hin as (u & Hid & Hin).
    apply existsb_exists. exists u. split; [exact Hin|].
    now apply Z.eqb_eq.
Qed.

Lemma addToMyBooks_fresh (db : Db.t) (response : GoogleBook.t) :
    findOne (where_of userId bookId) db = (inr None, db) ->
    getVolume bookId = Some response ->
    In userId (map User.id (Db.users db)) ->
    let row :=
      {| MyBooks.id := Db.myBooksSeq db;
         MyBooks.userId := userId;
         MyBooks.bookId := bookId;
         MyBooks.bookState := bookState;
         MyBooks.currentPage := None;
         MyBooks.totalPages :=
           VolumeInfo.pageCount (GoogleBook.volumeInfo response);
         MyBooks.book := response;
         MyBooks.createdAt := now;
         MyBooks.updatedAt := now |} in
    addToMyBooks now req body db
    = (inr row,
       {| Db.users := Db.users db;
          Db.myBooks := Db.myBooks db ++ [row];
          Db.userSeq := Db.userSeq db;
          Db.myBooksSeq := Db.myBooksSeq db + 1 |}).
Proof.
    intros Hfind Hget Huser row.
    unfold addToMyBooks, bind. unfold where_of in Hfind.
    rewrite Hfind, Hget. simpl.
    unfold createMyBook. simpl.
    now rewrite (user_connect_ok db Huser).
Qed.

End AddToMyBooks.

(** C4. When the pair already has an entry [e], the handler rewrites that
    entry where it stands and returns it: the state becomes the requested
    one, while id, owner, book id, current page, total pages and the cached
    catalog payload are those of [e] (of the other columns only [updatedAt]
    moves, to the instant of the write); the table keeps its length (no
    second entry) and the users are untouched. *)
Theorem addToMyBooks_existing_updates_state_only
    {axios : Catalog} (now : Z) (req : AuthRequest.t)
    (body : AddToMyBooksBody.t) (db : Db.t) (e : MyBooks.t) :
  wf_db db ->
  findOne (where_of (AuthRequest.userId req) (AddToMyBooksBody.bookId body))
          db = (inr (Some e), db) ->
  exists l1 l2 e' db',
    addToMyBooks now req body db = (inr e', db')
    /\ Db.myBooks db = l1 ++ e :: l2
    /\ Db.myBooks db' = l1 ++ e' :: l2
    /\ Db.users db' = Db.users db
    /\ List.length (Db.myBooks db') = List.length (Db.myBooks db)
    /\ MyBooks.bookState e' = AddToMyBooksBody.bookState body
    /\ MyBooks.currentPage e' = MyBooks.currentPage e
    /\ MyBooks.totalPages e' = MyBooks.totalPages e
    /\ MyBooks.book e' = MyBooks.book e
    /\ MyBooks.id e' = MyBooks.id e
    /\ MyBooks.userId e' = MyBooks.userId e
    /\ MyBooks.bookId e' = MyBooks.bookId e
    /\ MyBooks.createdAt e' = MyBooks.createdAt e
    /\ MyBooks.updatedAt e' = now.
Proof.
  intros Hwf Hfind.
  destruct (addToMyBooks_found now req body db e Hwf Hfind)
    as (l1 & l2 & Hrows & Hrun).
  exists l1, l2. eexists _, _. split; [exact Hrun|].
  split; [exact Hrows|]. split; [reflexivity|]. split; [reflexivity|].
  split; [|repeat split].
  simpl. rewrite Hrows, !length_app. reflexivity.
Qed.

Lemma addToMyBooks_existing_updates_state_only_witness :
  exists l1 l2 e' db',
    @addToMyBooks Fixture.axios 99 Fixture.req1
      {| AddToMyBooksBody.bookId := "B1"; AddToMyBooksBody.bookState := READ |}
      Fixture.db1 = (inr e', db')
    /\ Db.myBooks Fixture.db1 = l1 ++ Fixture.entry1 :: l2
    /\ Db.myBooks db' = l1 ++ e' :: l2
    /\ Db.users db' = Db.users Fixture.db1
    /\ List.length (Db.myBooks db') = List.length (Db.myBooks Fixture.db1)
    /\ MyBooks.bookState e' = READ
    /\ MyBooks.currentPage e' = Some 150
    /\ MyBooks.totalPages e' = 300
    /\ MyBooks.book e' = Fixture.B1
    /\ MyBooks.id e' = 1
    /\ MyBooks.userId e' = 1
    /\ MyBooks.bookId e' = "B1"
    /\ MyBooks.createdAt e' = 10
    /\ MyBooks.updatedAt e' = 99.
Proof.
  exact (@addToMyBooks_existing_updates_state_only Fixture.axios 99
           Fixture.req1
           {| AddToMyBooksBody.bookId := "B1";
              AddToMyBooksBody.bookState := READ |}
           Fixture.db1 Fixture.entry1 wf_db1 eq_refl).
Defined.

(** C6. When the pair has no entry, the catalog answers with [response]
    and the authenticated user is in the store, the handler appends and
    returns one new entry: total pages are the catalog page count, the
    current page is unset, the state is the requested one and the cached
    payload is the whole catalog response. *)
Theorem addToMyBooks_creates_entry
    {axios : Catalog} (now : Z) (req : AuthRequest.t)
    (body : AddToMyBooksBody.t) (db : Db.t) (response : GoogleBook.t) :
  findOne (where_of (AuthRequest.userId req) (AddToMyBooksBody.bookId body))
          db = (inr None, db) ->
  getVolume (AddToMyBooksBody.bookId body) = Some response ->
  In (AuthRequest.userId req) (map User.id (Db.users db)) ->
  exists row db',
    addToMyBooks now req body db = (inr row, db')
    /\ Db.myBooks db' = Db.myBooks db ++ [row]
    /\ Db.users db' = Db.users db
    /\ MyBooks.userId row = AuthRequest.userId req
    /\ MyBooks.bookId row = AddToMyBooksBody.bookId body
    /\ MyBooks.totalPages row
       = VolumeInfo.pageCount (GoogleBook.volumeInfo response)
    /\ MyBooks.currentPage row = None
    /\ MyBooks.bookState row = AddToMyBooksBody.bookState body
    /\ MyBooks.book row = response.
Proof.
  intros Hfind Hget Huser.
  eexists _, _. split.
  - exact (addToMyBooks_fresh now req body db response Hfind Hget Huser).
  - repeat split.
Qed.

Lemma addToMyBooks_creates_entry_witness :
  exists row db',
    @addToMyBooks Fixture.axios 99 Fixture.req1
      {| AddToMyBooksBody.bookId := "B1";
         AddToMyBooksBody.bookState := WANTS_TO_READ |}
      Fixture.db0 = (inr row, db')
    /\ Db.myBooks db' = Db.myBooks Fixture.db0 ++ [row]
    /\ Db.users db' = Db.users Fixture.db0
    /\ MyBooks.userId row = 1
    /\ MyBooks.bookId row = "B1"
    /\ MyBooks.totalPages row = 300
    /\ MyBooks.currentPage row = None
    /\ MyBooks.bookState row = WANTS_TO_READ
    /\ MyBooks.book row = Fixture.B1.
Proof.
  exact (@addToMyBooks_creates_entry Fixture.axios 99 Fixture.req1
           {| AddToMyBooksBody.bookId := "B1";
              AddToMyBooksBody.bookState := WANTS_TO_READ |}
           Fixture.db0 Fixture.B1 eq_refl eq_refl (or_introl eq_refl)).
Defined.

(* ===================================================================== *)
(** ** What a reading-list request can touch                              *)
(* ===================================================================== *)

Lemma write_step_users (where_ : MyBooksWhereInput.t) (db db' : Db.t) :
  write_step where_ db db' -> Db.users db' = Db.users db.
Proof. now destruct 1. Qed.

Lemma write_step_others (where_ : MyBooksWhereInput.t) (db db' : Db.t) :
  write_step where_ db db' ->
  filter (fun b => negb (matches where_ b)) (Db.myBooks db')
  = filter (fun b => negb (matches where_ b)) (Db.myBooks db).
Proof.
  destruct 1 as [|row Hrow _|l1 l2 e e' Hrows He He' _ _]; simpl.
  - reflexivity.
  - rewrite filter_app. simpl. rewrite Hrow. simpl. apply app_nil_r.
  - rewrite Hrows, !filter_app. simpl. now rewrite He, He'.
Qed.

Lemma write_step_length (where_ : MyBooksWhereInput.t) (db db' : Db.t) :
  write_step where_ db db' ->
  (List.length (Db.myBooks db) <= List.length (Db.myBooks db')
   <= List.length (Db.myBooks db) + 1)%nat.
Proof.
  destruct 1 as [|row _ _|l1 l2 e e' Hrows _ _ _ _]; simpl.
  - lia.
  - rewrite length_app. simpl. lia.
  - rewrite Hrows, !length_app. simpl. lia.
Qed.

(** The primary key survives every step. *)
Lemma write_step_wf (where_ : MyBooksWhereInput.t) (db db' : Db.t) :
  write_step where_ db db' -> wf_db db -> wf_db db'.
Proof.
  destruct 1 as [|row _ Hid|l1 l2 e e' Hrows _ _ Hid _];
    intros [Hnd Hlt]; [now split| |]; unfold wf_db; simpl.
  - split.
    + rewrite map_app. simpl.
      apply NoDup_app; [exact Hnd|repeat constructor; now intros []|].
      intros i Hi [<-|[]]. apply in_map_iff in Hi.
      destruct Hi as (b & Hb & Hin).
      rewrite Forall_forall in Hlt. specialize (Hlt b Hin). lia.
    + apply Forall_app. split.
      * eapply Forall_impl; [|exact Hlt]. simpl. intros; lia.
      * repeat constructor. lia.
  - rewrite Hrows in Hnd, Hlt. split.
    + rewrite map_app in *. simpl in *. now rewrite Hid.
    + apply Forall_app in Hlt. destruct Hlt as [H1 H2].
      inversion H2; subst. apply Forall_app. split; [exact H1|].
      constructor; [now rewrite Hid|assumption].
Qed.

Lemma updateBookReading_step (now : Z) (params : UpdateBookReadingParams.t)
    (body : UpdateBookReadingBody.t) (req : AuthRequest.t) (db : Db.t) :
  wf_db db ->
  write_step
    (where_of (AuthRequest.userId req) (UpdateBookReadingParams.id params))
    db (snd (updateBookReading now params body req db)).
Proof.
  intros Hwf.
  set (w := where_of (AuthRequest.userId req) (UpdateBookReadingParams.id params)).
  destruct (find (matches w) (Db.myBooks db)) as [e|] eqn:Hfind.
  - assert (Hf : findOne w db = (inr (Some e), db))
      by (rewrite findOne_run; now rewrite Hfind).
    destruct (findOne_Some_In _ _ _ Hf) as [_ Hm].
    destruct (updateBookReading_found now params body req db e Hwf Hf)
      as (l1 & l2 & Hrows & ->).
    simpl. now apply step_update with (e := e).
  - assert (Hf : findOne w db = (inr None, db))
      by (rewrite findOne_run; now rewrite Hfind).
    rewrite (updateBookReading_missing now params body req db Hf).
    apply step_none.
Qed.

Lemma addToMyBooks_step {axios : Catalog} (now : Z) (req : AuthRequest.t)
    (body : AddToMyBooksBody.t) (db : Db.t) :
  wf_db db ->
  write_step
    (where_of (AuthRequest.userId req) (AddToMyBooksBody.bookId body))
    db (snd (addToMyBooks now req body db)).
Proof.
  intros Hwf.
  set (w := where_of (AuthRequest.userId req) (AddToMyBooksBody.bookId body)).
  destruct (find (matches w) (Db.myBooks db)) as [e|] eqn:Hfind.
  - assert (Hf : findOne w db = (inr (Some e), db))
      by (rewrite findOne_run; now rewrite Hfind).
    destruct (findOne_Some_In _ _ _ Hf) as [_ Hm].
    destruct (addToMyBooks_found now req body db e Hwf Hf)
      as (l1 & l2 & Hrows & ->).
    simpl. now apply step_update with (e := e).
  - subst w. unfold where_of in Hfind.
    unfold addToMyBooks, bind. rewrite findOne_run, Hfind.
    destruct (getVolume (AddToMyBooksBody.bookId body)) as [response|];
      simpl; [|apply step_none].
    unfold createMyBook. simpl.
    destruct (existsb _ (Db.users db)); simpl; [|apply step_none].
    apply step_create; [|reflexivity].
    unfold matches. simpl. now rewrite String.eqb_refl, Z.eqb_refl.
Qed.

(** C10. On a store with distinct entry ids, each of the two mutating
    handlers, called by [req]'s user for one book, changes the store by at
    most one entry of that (userId, bookId) pair: the entries of all other
    pairs, in their order, and the user records are as before, and the
    table grows by at most one row. *)
Theorem reading_list_writes_stay_in_pair
    {axios : Catalog} (now : Z) (req : AuthRequest.t)
    (abody : AddToMyBooksBody.t) (params : UpdateBookReadingParams.t)
    (rbody : UpdateBookReadingBody.t) (db : Db.t) :
  wf_db db ->
  let userId := AuthRequest.userId req in
  let db_add := snd (addToMyBooks now req abody db) in
  let db_read := snd (updateBookReading now params rbody req db) in
  (write_step (where_of userId (AddToMyBooksBody.bookId abody)) db db_add
   /\ other_entries userId (AddToMyBooksBody.bookId abody) db_add
      = other_entries userId (AddToMyBooksBody.bookId abody) db
   /\ Db.users db_add = Db.users db)
  /\ (write_step (where_of userId (UpdateBookReadingParams.id params)) db db_read
      /\ other_entries userId (UpdateBookReadingParams.id params) db_read
         = other_entries userId (UpdateBookReadingParams.id params) db
      /\ Db.users db_read = Db.users db).
Proof.
  intros Hwf userId db_add db_read.
  pose proof (addToMyBooks_step now req abody db Hwf) as Ha.
  pose proof (updateBookReading_step now params rbody req db Hwf) as Hr.
  split; (split; [assumption|]); split.
  - exact (write_step_others _ _ _ Ha).
  - exact (write_step_users _ _ _ Ha).
  - exact (write_step_others _ _ _ Hr).
  - exact (write_step_users _ _ _ Hr).
Qed.

Lemma reading_list_writes_stay_in_pair_witness :
  let abody := {| AddToMyBooksBody.bookId := "B1";
                  AddToMyBooksBody.bookState := IS_READING |} in
  let params := {| UpdateBookReadingParams.id := "B1" |} in
  let rbody := {| UpdateBookReadingBody.page := 200 |} in
  let db_add :=
    snd (@addToMyBooks Fixture.axios 99 Fixture.req1 abody Fixture.db1) in
  let db_read :=
    snd (updateBookReading 99 params rbody Fixture.req1 Fixture.db1) in
  (write_step (where_of 1 "B1") Fixture.db1 db_add
   /\ other_entries 1 "B1" db_add = other_entries 1 "B1" Fixture.db1
   /\ Db.users db_add = Db.users Fixture.db1)
  /\ (write_step (where_of 1 "B1") Fixture.db1 db_read
      /\ other_entries 1 "B1" db_read = other_entries 1 "B1" Fixture.db1
      /\ Db.users db_read = Db.users Fixture.db1).
Proof.
  exact (@reading_list_writes_stay_in_pair Fixture.axios 99 Fixture.req1
           {| AddToMyBooksBody.bookId := "B1";
              AddToMyBooksBody.bookState := IS_READING |}
           {| UpdateBookReadingParams.id := "B1" |}
           {| UpdateBookReadingBody.page := 200 |} Fixture.db1 wf_db1).
Defined.

Corollary addToMyBooks_wf {axios : Catalog} (now : Z) (req : AuthRequest.t)
    (body : AddToMyBooksBody.t) (db : Db.t) :
  wf_db db -> wf_db (snd (addToMyBooks now req body db)).
Proof.
  intros Hwf. eapply write_step_wf; [|exact Hwf].
  now apply addToMyBooks_step.
Qed.

Corollary updateBookReading_wf (now : Z) (params : UpdateBookReadingParams.t)
    (body : UpdateBookReadingBody.t) (req : AuthRequest.t) (db : Db.t) :
  wf_db db -> wf_db (snd (updateBookReading now params body req db)).
Proof.
  intros Hwf. eapply write_step_wf; [|exact Hwf].
  now apply updateBookReading_step.
Qed.

Lemma signup_wf {bcrypt : Bcrypt} (body : SignUpBody.t) (db : Db.t) :
  wf_db db -> wf_db (snd (signup body db)).
Proof.
  intros Hwf. unfold signup, bind, UserService.findOne, query.
  destruct (find _ (Db.users db)); [exact Hwf|].
  unfold UserService.createUser. simpl.
  destruct (existsb _ (Db.users db)); exact Hwf.
Qed.

(* ===================================================================== *)
(** ** The page invariant                                                 *)
(* ===================================================================== *)

Lemma Forall_rewrite_row (P : MyBooks.t -> Prop) (l1 l2 : list MyBooks.t)
    (e e' : MyBooks.t) :
  Forall P (l1 ++ e :: l2) -> P e' -> Forall P (l1 ++ e' :: l2).
Proof.
  intros H He'. apply Forall_app in H. destruct H as [H1 H2].
  inversion H2; subst. apply Forall_app. split; [exact H1|].
  now constructor.
Qed.

(** A step that keeps the page bound of the row it rewrites keeps it on
    the table; a created row has no current page. *)
Lemma addToMyBooks_keeps (P : MyBooks.t -> Prop) {axios : Catalog} (now : Z)
    (req : AuthRequest.t) (body : AddToMyBooksBody.t) (db : Db.t) :
  (forall b, MyBooks.currentPage b = None -> P b) ->
  (forall s b, P b -> P (apply_update now (state_data s) b)) ->
  wf_db db ->
  Forall P (Db.myBooks db) ->
  Forall P (Db.myBooks (snd (addToMyBooks now req body db))).
Proof.
  intros Hnone Hupd Hwf Hall.
  set (w := where_of (AuthRequest.userId req) (AddToMyBooksBody.bookId body)).
  destruct (find (matches w) (Db.myBooks db)) as [e|] eqn:Hfind.
  - assert (Hf : findOne w db = (inr (Some e), db))
      by (rewrite findOne_run; now rewrite Hfind).
    destruct (addToMyBooks_found now req body db e Hwf Hf)
      as (l1 & l2 & Hrows & ->).
    simpl. rewrite Hrows in Hall.
    eapply Forall_rewrite_row; [exact Hall|].
    apply Hupd. apply Forall_app in Hall. destruct Hall as [_ H2].
    now inversion H2.
  - subst w. unfold where_of in Hfind.
    unfold addToMyBooks, bind. rewrite findOne_run, Hfind.
    destruct (getVolume (AddToMyBooksBody.bookId body)) as [response|];
      simpl; [|exact Hall].
    unfold createMyBook. simpl.
    destruct (existsb _ (Db.users db)); simpl; [|exact Hall].
    apply Forall_app. split; [exact Hall|].
    constructor; [|constructor]. now apply Hnone.
Qed.

Lemma updateBookReading_keeps (P : MyBooks.t -> Prop) (now : Z)
    (params : UpdateBookReadingParams.t) (body : UpdateBookReadingBody.t)
    (req : AuthRequest.t) (db : Db.t) :
  (forall e,
     findOne (where_of (AuthRequest.userId req)
                       (UpdateBookReadingParams.id params)) db
     = (inr (Some e), db) ->
     P (apply_update now (reading_data (UpdateBookReadingBody.page body) e) e)) ->
  wf_db db ->
  Forall P (Db.myBooks db) ->
  Forall P (Db.myBooks (snd (updateBookReading now params body req db))).
Proof.
  intros Hupd Hwf Hall.
  set (w := where_of (AuthRequest.userId req) (UpdateBookReadingParams.id params)).
  destruct (find (matches w) (Db.myBooks db)) as [e|] eqn:Hfind.
  - assert (Hf : findOne w db = (inr (Some e), db))
      by (rewrite findOne_run; now rewrite Hfind).
    destruct (updateBookReading_found now params body req db e Hwf Hf)
      as (l1 & l2 & Hrows & ->).
    simpl. rewrite Hrows in Hall.
    eapply Forall_rewrite_row; [exact Hall|]. now apply Hupd.
  - assert (Hf : findOne w db = (inr None, db))
      by (rewrite findOne_run; now rewrite Hfind).
    now rewrite (updateBookReading_missing now params body req db Hf).
Qed.

(** C2 (as amended). On a store with distinct entry ids: the upper bound
    [currentPage <= totalPages] on every entry whose current page is set is
    preserved by AddOrUpdateBook and by RecordProgress for every reported
    page; the two-sided bound [0 <= currentPage <= totalPages] is preserved
    by AddOrUpdateBook, and by RecordProgress when the reported page is not
    negative and the entry reported on has non-negative total pages. *)
Theorem page_bounds_preserved
    {axios : Catalog} (now : Z) (req : AuthRequest.t)
    (abody : AddToMyBooksBody.t) (params : UpdateBookReadingParams.t)
    (rbody : UpdateBookReadingBody.t) (db : Db.t) :
  wf_db db ->
  let db_add := snd (addToMyBooks now req abody db) in
  let db_read := snd (updateBookReading now params rbody req db) in
  (Forall page_le_total (Db.myBooks db) ->
   Forall page_le_total (Db.myBooks db_add)
   /\ Forall page_le_total (Db.myBooks db_read))
  /\ (Forall page_invariant (Db.myBooks db) ->
      Forall page_invariant (Db.myBooks db_add)
      /\ (0 <= UpdateBookReadingBody.page rbody ->
          (forall e,
             findOne (where_of (AuthRequest.userId req)
                               (UpdateBookReadingParams.id params)) db
             = (inr (Some e), db) ->
             0 <= MyBooks.totalPages e) ->
          Forall page_invariant (Db.myBooks db_read))).
Proof.
  intros Hwf db_add db_read. split; intros Hall.
  - split.
    + apply addToMyBooks_keeps; try assumption.
      * intros b Hb. unfold page_le_total. now rewrite Hb.
      * intros s b Hb. exact Hb.
    + apply updateBookReading_keeps; try assumption.
      intros e _. unfold page_le_total. simpl.
      destruct (Z.geb_spec (UpdateBookReadingBody.page rbody)
                           (MyBooks.totalPages e)); lia.
  - split.
    + apply addToMyBooks_keeps; try assumption.
      * intros b Hb. unfold page_invariant. now rewrite Hb.
      * intros s b Hb. exact Hb.
    + intros Hpage Htotal.
      apply updateBookReading_keeps; try assumption.
      intros e He. specialize (Htotal e He). unfold page_invariant. simpl.
      destruct (Z.geb_spec (UpdateBookReadingBody.page rbody)
                           (MyBooks.totalPages e)); lia.
Qed.

Lemma page_bounds_preserved_witness :
  let abody := {| AddToMyBooksBody.bookId := "B1";
                  AddToMyBooksBody.bookState := IS_READING |} in
  let params := {| UpdateBookReadingParams.id := "B1" |} in
  let rbody := {| UpdateBookReadingBody.page := 500 |} in
  let db_add :=
    snd (@addToMyBooks Fixture.axios 99 Fixture.req1 abody Fixture.db1) in
  let db_read :=
    snd (updateBookReading 99 params rbody Fixture.req1 Fixture.db1) in
  (Forall page_le_total (Db.myBooks db_add)
   /\ Forall page_le_total (Db.myBooks db_read))
  /\ Forall page_invariant (Db.myBooks db_add)
  /\ Forall page_invariant (Db.myBooks db_read).
Proof.
  pose proof (@page_bounds_preserved Fixture.axios 99 Fixture.req1
                {| AddToMyBooksBody.bookId := "B1";
                   AddToMyBooksBody.bookState := IS_READING |}
                {| UpdateBookReadingParams.id := "B1" |}
                {| UpdateBookReadingBody.page := 500 |} Fixture.db1 wf_db1)
    as [Hle Hinv].
  assert (H1 : Forall page_le_total (Db.myBooks Fixture.db1))
    by (repeat constructor; unfold page_le_total; simpl; lia).
  assert (H2 : Forall page_invariant (Db.myBooks Fixture.db1))
    by (repeat constructor; unfold page_invariant; simpl; lia).
  split; [exact (Hle H1)|].
  destruct (Hinv H2) as [Ha Hr]. split; [exact Ha|].
  apply Hr; [simpl; lia|].
  intros e He. inversion He. simpl. lia.
Defined.

(** C2, as stated, fails: a negative reported page is stored as it is. On
    the store with one entry at page 150 of 300, which satisfies the
    invariant, reporting page -5 leaves an entry that violates it. *)
Lemma page_invariant_broken_by_negative_page :
  wf_db Fixture.db1
  /\ Forall page_invariant (Db.myBooks Fixture.db1)
  /\ fst (updateBookReading 99 {| UpdateBookReadingParams.id := "B1" |}
            {| UpdateBookReadingBody.page := -5 |} Fixture.req1 Fixture.db1)
     = inr (apply_update 99 {| MyBooksUpdateInput.currentPage := Some (-5);
                               MyBooksUpdateInput.bookState := Some WANTS_TO_READ |}
              Fixture.entry1)
  /\ ~ Forall page_invariant
         (Db.myBooks
            (snd (updateBookReading 99 {| UpdateBookReadingParams.id := "B1" |}
                    {| UpdateBookReadingBody.page := -5 |} Fixture.req1
                    Fixture.db1))).
Proof.
  split; [exact wf_db1|].
  split; [repeat constructor; unfold page_invariant; simpl; lia|].
  split; [reflexivity|].
  intros H. inversion H as [|? ? Hbad _]; subst.
  unfold page_invariant in Hbad. simpl in Hbad. lia.
Qed.

(** Why the amended bound asks for non-negative total pages: an entry
    with no current page and total pages -1 satisfies the invariant, and a
    report of page 0 stores current page -1. *)
Example page_invariant_needs_total_pages_nonneg :
  let row :=
    {| MyBooks.id := 1; MyBooks.userId := 1; MyBooks.bookId := "B1";
       MyBooks.bookState := IS_READING; MyBooks.currentPage := None;
       MyBooks.totalPages := -1; MyBooks.book := Fixture.B1;
       MyBooks.createdAt := 10; MyBooks.updatedAt := 10 |} in
  let db := Db.with_myBooks [row] Fixture.db1 in
  page_invariant row
  /\ match fst (updateBookReading 99
                    {| UpdateBookReadingParams.id := "B1" |}
                    {| UpdateBookReadingBody.page := 0 |} Fixture.req1 db) with
     | inr e' => MyBooks.currentPage e' = Some (-1)
     | inl _ => False
     end.
Proof. split; [exact I|reflexivity]. Qed.

(* ===================================================================== *)
(** ** Session issuer: refresh, sign-up, sign-in                          *)
(* ===================================================================== *)

Lemma indexOf_is_minus1_false (x : string) (l : list string) :
  indexOf_is_minus1 x l = false <-> In x l.
Proof.
  unfold indexOf_is_minus1. rewrite negb_false_iff, existsb_exists.
  split.
  - intros (y & Hin & Heq). apply String.eqb_eq in Heq. now subst.
  - intros Hin. exists x. split; [exact Hin|apply String.eqb_refl].
Qed.

Lemma find_None_existsb {A : Type} (f : A -> bool) (l : list A) :
  find f l = None -> existsb f l = false.
Proof.
  induction l as [|a l IH]; simpl; [reflexivity|].
  destruct (f a); [discriminate|exact IH].
Qed.

Lemma UserService_findOne_run (where_ : UserService.UserWhereUniqueInput)
    (db : Db.t) :
  UserService.findOne where_ db
  = (inr (find (UserService.matches where_) (Db.users db)), db).
Proof. reflexivity. Qed.

Section Session.

Context {jwtService : JwtService} {bcrypt : Bcrypt}.

Lemma refresh_run (header : RefreshHeaders.t) (db : Db.t) :
  refresh header db
  = match presented header with
    | None => (inl (UnauthorizedException "Cannot refresh session"), db)
    | Some payload =>
        if indexOf_is_minus1 "refreshToken" (AccessTokenPayload.scope payload)
        then (inl (UnauthorizedException "Cannot refresh session"), db)
        else
          match find (UserService.matches
                        (UserService.id (AccessTokenPayload.userId payload)))
                     (Db.users db) with
          | None => (inl (UnauthorizedException "Cannot refresh session"), db)
          | Some user => (inr (reissued user), db)
          end
    end.
Proof.
  unfold refresh, presented, try_catch, bind.
  destruct (nth_error _ 1) as [t|]; [|reflexivity].
  destruct (verifyAsync t) as [payload|]; [|reflexivity]. simpl.
  destruct (indexOf_is_minus1 _ _); [reflexivity|].
  unfold UserService.findOne, query.
  now destruct (find _ (Db.users db)).
Qed.

Lemma signin_run (body : SignInBody.t) (db : Db.t) :
  signin body db
  = match find (UserService.matches (UserService.email (SignInBody.email body)))
               (Db.users db) with
    | None => (inl (UnauthorizedException "Invalid credentials"), db)
    | Some user =>
        if compare (SignInBody.password body) (User.password user)
        then (inr (issued user), db)
        else (inl (UnauthorizedException "Invalid credentials"), db)
    end.
Proof.
  unfold signin, bind. rewrite UserService_findOne_run.
  destruct (find _ (Db.users db)) as [user|]; [|reflexivity].
  now destruct (compare _ _).
Qed.

Lemma signup_run (body : SignUpBody.t) (db : Db.t) :
  signup body db
  = match find (UserService.matches (UserService.email (SignUpBody.email body)))
               (Db.users db) with
    | Some _ => (inl (BadRequestException "User already exists"), db)
    | None =>
        let user :=
          {| User.id := Db.userSeq db;
             User.name := Some (SignUpBody.name body);
             User.email := SignUpBody.email body;
             User.avatar := None;
             User.password := hash (SignUpBody.password body) 10 |} in
        (inr {| SignUpResponse.user := delete_password user |},
         {| Db.users := Db.users db ++ [user];
            Db.myBooks := Db.myBooks db;
            Db.userSeq := Db.userSeq db + 1;
            Db.myBooksSeq := Db.myBooksSeq db |})
    end.
Proof.
  unfold signup, bind. rewrite UserService_findOne_run.
  destruct (find _ (Db.users db)) as [user|] eqn:Hfind; [reflexivity|].
  unfold UserService.createUser. simpl.
  now rewrite (find_None_existsb _ _ Hfind).
Qed.

End Session.

(** Users that look the same without their passwords are found alike. *)
Lemma find_by_email_public (e : string) (us1 us2 : list User.t)
    (u1 u2 : User.t) :
  map delete_password us1 = map delete_password us2 ->
  find (UserService.matches (UserService.email e)) us1 = Some u1 ->
  find (UserService.matches (UserService.email e)) us2 = Some u2 ->
  delete_password u1 = delete_password u2.
Proof.
  revert us2. induction us1 as [|a us1 IH]; intros [|b us2]; simpl;
    try discriminate.
  intros Hmap.
  assert (Hhd : delete_password a = delete_password b) by congruence.
  assert (Htl : map delete_password us1 = map delete_password us2)
    by congruence.
  assert (Hemail : User.email a = User.email b)
    by exact (f_equal UserModel.email Hhd).
  rewrite Hemail. destruct (String.eqb (User.email b) e).
  - intros [= <-] [= <-]. exact Hhd.
  - now apply IH.
Qed.

(** C8. A refresh request is answered with Unauthorized when the presented
    credential does not verify, when its scope lacks "refreshToken", or
    when its subject is not the id of a stored user; in every other case
    it succeeds, writes nothing, and answers with a newly signed
    access/refresh pair for that user. *)
Theorem refresh_unauthorized_or_reissues
    {jwtService : JwtService} (header : RefreshHeaders.t) (db : Db.t) :
  (presented header = None
   \/ (exists payload,
         presented header = Some payload
         /\ ~ In "refreshToken" (AccessTokenPayload.scope payload))
   \/ (exists payload,
         presented header = Some payload
         /\ UserService.findOne
              (UserService.id (AccessTokenPayload.userId payload)) db
            = (inr None, db)) ->
   refresh header db
   = (inl (UnauthorizedException "Cannot refresh session"), db))
  /\ (forall payload user,
        presented header = Some payload ->
        In "refreshToken" (AccessTokenPayload.scope payload) ->
        UserService.findOne
          (UserService.id (AccessTokenPayload.userId payload)) db
        = (inr (Some user), db) ->
        refresh header db
        = (inr {| RefreshResponse.accessToken :=
                    sign {| AccessTokenPayload.scope := ["accessToken"];
                            AccessTokenPayload.userId := User.id user |}
                         {| SignOptions.expiresIn := "30 second" |};
                  RefreshResponse.refreshToken :=
                    sign {| AccessTokenPayload.scope := ["refreshToken"];
                            AccessTokenPayload.userId := User.id user |}
                         {| SignOptions.expiresIn := "1 minute" |} |},
           db)).
Proof.
  split.
  - intros [Hnone|[(payload & Hp & Hscope)|(payload & Hp & Huser)]];
      rewrite refresh_run.
    + now rewrite Hnone.
    + rewrite Hp.
      destruct (indexOf_is_minus1 _ _) eqn:Hidx; [reflexivity|].
      apply indexOf_is_minus1_false in Hidx. contradiction.
    + rewrite Hp. destruct (indexOf_is_minus1 _ _); [reflexivity|].
      rewrite UserService_findOne_run in Huser.
      injection Huser as Huser. now rewrite Huser.
  - intros payload user Hp Hscope Huser. rewrite refresh_run, Hp.
    apply indexOf_is_minus1_false in Hscope. rewrite Hscope.
    rewrite UserService_findOne_run in Huser.
    injection Huser as Huser. now rewrite Huser.
Qed.

Lemma refresh_unauthorized_or_reissues_witness :
  @refresh Fixture.jwt {| RefreshHeaders.authorization := "Bearer access-of-1" |}
    Fixture.db1
  = (inl (UnauthorizedException "Cannot refresh session"), Fixture.db1)
  /\ @refresh Fixture.jwt
       {| RefreshHeaders.authorization := "Bearer refresh-of-1" |} Fixture.db1
     = (inr {| RefreshResponse.accessToken := "accessToken/30 second";
               RefreshResponse.refreshToken := "refreshToken/1 minute" |},
        Fixture.db1).
Proof.
  split.
  - apply (proj1 (@refresh_unauthorized_or_reissues Fixture.jwt
                    {| RefreshHeaders.authorization := "Bearer access-of-1" |}
                    Fixture.db1)).
    right; left.
    exists {| AccessTokenPayload.scope := ["accessToken"];
              AccessTokenPayload.userId := 1 |}.
    split; [reflexivity|].
    simpl. intros [H|[]]. discriminate H.
  - apply (proj2 (@refresh_unauthorized_or_reissues Fixture.jwt
                    {| RefreshHeaders.authorization := "Bearer refresh-of-1" |}
                    Fixture.db1)
             {| AccessTokenPayload.scope := ["refreshToken"];
                AccessTokenPayload.userId := 1 |} Fixture.ana).
    + reflexivity.
    + simpl. now left.
    + reflexivity.
Defined.

(** C7. Every successful refresh answers with an access token signed with
    [expiresIn] "30 second" (30 seconds of validity) and a refresh token
    signed with "1 minute" (60 seconds); every successful sign-in answers
    with an access token signed with "1 hour" (3600 seconds) and a refresh
    token signed with "3 hours" (10800 seconds), so the reissued pair is the
    shorter-lived one. *)
Theorem refresh_reissues_shorter_lived_pair
    {jwtService : JwtService} {bcrypt : Bcrypt}
    (header : RefreshHeaders.t) (db db' : Db.t) (r : RefreshResponse.t)
    (body : SignInBody.t) (db0 db0' : Db.t) (r0 : SignInResponse.t) :
  (refresh header db = (inr r, db') ->
   exists userId access_options refresh_options,
     RefreshResponse.accessToken r
     = sign {| AccessTokenPayload.scope := ["accessToken"];
               AccessTokenPayload.userId := userId |} access_options
     /\ RefreshResponse.refreshToken r
        = sign {| AccessTokenPayload.scope := ["refreshToken"];
                  AccessTokenPayload.userId := userId |} refresh_options
     /\ SignOptions.expiresIn access_options = "30 second"
     /\ SignOptions.expiresIn refresh_options = "1 minute"
     /\ timespan access_options = Some 30
     /\ timespan refresh_options = Some 60)
  /\ (signin body db0 = (inr r0, db0') ->
      exists userId access_options refresh_options,
        SignInResponse.accessToken r0
        = sign {| AccessTokenPayload.scope := ["accessToken"];
                  AccessTokenPayload.userId := userId |} access_options
        /\ SignInResponse.refreshToken r0
           = sign {| AccessTokenPayload.scope := ["refreshToken"];
                     AccessTokenPayload.userId := userId |} refresh_options
        /\ SignOptions.expiresIn access_options = "1 hour"
        /\ SignOptions.expiresIn refresh_options = "3 hours"
        /\ timespan access_options = Some 3600
        /\ timespan refresh_options = Some 10800)
  /\ 30 < 3600 /\ 60 < 10800.
Proof.
  split; [|split; [|lia]].
  - rewrite refresh_run.
    destruct (presented header) as [payload|]; [|discriminate].
    destruct (indexOf_is_minus1 _ _); [discriminate|].
    destruct (find _ (Db.users db)) as [user|]; [|discriminate].
    intros [= <- _].
    exists (User.id user), {| SignOptions.expiresIn := "30 second" |},
           {| SignOptions.expiresIn := "1 minute" |}.
    repeat split.
  - rewrite signin_run.
    destruct (find _ (Db.users db0)) as [user|]; [|discriminate].
    destruct (compare _ _); [|discriminate].
    intros [= <- _].
    exists (User.id user), {| SignOptions.expiresIn := "1 hour" |},
           {| SignOptions.expiresIn := "3 hours" |}.
    repeat split.
Qed.

Lemma refresh_reissues_shorter_lived_pair_witness :
  let r := {| RefreshResponse.accessToken := "accessToken/30 second";
              RefreshResponse.refreshToken := "refreshToken/1 minute" |} in
  let r0 := {| SignInResponse.user := delete_password Fixture.ana;
               SignInResponse.accessToken := "accessToken/1 hour";
               SignInResponse.refreshToken := "refreshToken/3 hours" |} in
  (exists userId access_options refresh_options,
     RefreshResponse.accessToken r
     = @sign Fixture.jwt {| AccessTokenPayload.scope := ["accessToken"];
                            AccessTokenPayload.userId := userId |} access_options
     /\ RefreshResponse.refreshToken r
        = @sign Fixture.jwt {| AccessTokenPayload.scope := ["refreshToken"];
                               AccessTokenPayload.userId := userId |}
            refresh_options
     /\ SignOptions.expiresIn access_options = "30 second"
     /\ SignOptions.expiresIn refresh_options = "1 minute"
     /\ timespan access_options = Some 30
     /\ timespan refresh_options = Some 60)
  /\ (exists userId access_options refresh_options,
        SignInResponse.accessToken r0
        = @sign Fixture.jwt {| AccessTokenPayload.scope := ["accessToken"];
                               AccessTokenPayload.userId := userId |}
            access_options
        /\ SignInResponse.refreshToken r0
           = @sign Fixture.jwt {| AccessTokenPayload.scope := ["refreshToken"];
                                  AccessTokenPayload.userId := userId |}
               refresh_options
        /\ SignOptions.expiresIn access_options = "1 hour"
        /\ SignOptions.expiresIn refresh_options = "3 hours"
        /\ timespan access_options = Some 3600
        /\ timespan refresh_options = Some 10800).
Proof.
  intros r r0.
  destruct (@refresh_reissues_shorter_lived_pair Fixture.jwt Fixture.bcrypt
              {| RefreshHeaders.authorization := "Bearer refresh-of-1" |}
              Fixture.db1 Fixture.db1 r
              {| SignInBody.email := "ana@dev.books";
                 SignInBody.password := "s3cret" |}
              Fixture.db1 Fixture.db1 r0) as [Hrefresh [Hsignin _]].
  split; [exact (Hrefresh eq_refl)|exact (Hsignin eq_refl)].
Defined.

(** C9. Sign-up with an email some stored user already has throws
    [BadRequestException] "User already exists" and leaves the store as it
    was. With a free email it appends one user whose password column is
    [bcrypt.hash(password, 10)] and answers with that user without the
    password property. The answer of sign-up does not depend on the
    password; sign-in either throws Unauthorized or answers with a stored
    user without the password property and two tokens signed over the
    user's id, and two successful sign-ins for the same email answer alike
    whatever the passwords and the stored hashes are. *)
Theorem signup_rejects_taken_email_and_hides_password
    {jwtService : JwtService} {bcrypt : Bcrypt}
    (body : SignUpBody.t) (db : Db.t) :
  (forall existing,
     UserService.findOne (UserService.email (SignUpBody.email body)) db
     = (inr (Some existing), db) ->
     signup body db = (inl (BadRequestException "User already exists"), db))
  /\ (UserService.findOne (UserService.email (SignUpBody.email body)) db
      = (inr None, db) ->
      exists user db',
        signup body db
        = (inr {| SignUpResponse.user := delete_password user |}, db')
        /\ Db.users db' = Db.users db ++ [user]
        /\ Db.myBooks db' = Db.myBooks db
        /\ User.email user = SignUpBody.email body
        /\ User.name user = Some (SignUpBody.name body)
        /\ User.password user = hash (SignUpBody.password body) 10)
  /\ (forall password',
        fst (signup body db)
        = fst (signup {| SignUpBody.name := SignUpBody.name body;
                         SignUpBody.email := SignUpBody.email body;
                         SignUpBody.password := password' |} db))
  /\ (forall sbody,
        signin sbody db
        = (inl (UnauthorizedException "Invalid credentials"), db)
        \/ exists user,
             In user (Db.users db)
             /\ signin sbody db
                = (inr {| SignInResponse.user := delete_password user;
                          SignInResponse.accessToken :=
                            sign {| AccessTokenPayload.scope := ["accessToken"];
                                    AccessTokenPayload.userId := User.id user |}
                                 {| SignOptions.expiresIn := "1 hour" |};
                          SignInResponse.refreshToken :=
                            sign {| AccessTokenPayload.scope := ["refreshToken"];
                                    AccessTokenPayload.userId := User.id user |}
                                 {| SignOptions.expiresIn := "3 hours" |} |},
                   db))
  /\ (forall sbody1 sbody2 db2 r1 r2 db1' db2',
        SignInBody.email sbody1 = SignInBody.email sbody2 ->
        map delete_password (Db.users db) = map delete_password (Db.users db2) ->
        signin sbody1 db = (inr r1, db1') ->
        signin sbody2 db2 = (inr r2, db2') ->
        r1 = r2).
Proof.
  split; [|split; [|split; [|split]]].
  - intros existing Hfind. rewrite signup_run.
    rewrite UserService_findOne_run in Hfind. injection Hfind as Hfind.
    now rewrite Hfind.
  - intros Hfind. rewrite signup_run.
    rewrite UserService_findOne_run in Hfind. injection Hfind as Hfind.
    rewrite Hfind. eexists _, _. split; [reflexivity|]. repeat split.
  - intros password'. rewrite !signup_run. simpl.
    now destruct (find _ (Db.users db)).
  - intros sbody. rewrite signin_run.
    destruct (find _ (Db.users db)) as [user|] eqn:Hfind; [|now left].
    destruct (compare _ _); [|now left].
    right. exists user. split; [|reflexivity].
    now apply find_some in Hfind.
  - intros sbody1 sbody2 db2 r1 r2 db1' db2' Hemail Hpublic.
    rewrite !signin_run, Hemail.
    destruct (find _ (Db.users db)) as [u1|] eqn:H1; [|discriminate].
    destruct (find _ (Db.users db2)) as [u2|] eqn:H2;
      [|destruct (compare _ _); discriminate].
    destruct (compare _ _); [|discriminate].
    destruct (compare _ _); [|discriminate].
    intros [= <- _] [= <- _].
    pose proof (find_by_email_public _ _ _ _ _ Hpublic H1 H2) as Hsame.
    unfold issued. rewrite Hsame.
    now rewrite (f_equal UserModel.id Hsame : User.id u1 = User.id u2).
Qed.

Lemma signup_rejects_taken_email_and_hides_password_witness :
  @signup Fixture.bcrypt
    {| SignUpBody.name := "Ana again"; SignUpBody.email := "ana@dev.books";
       SignUpBody.password := "pw" |} Fixture.db1
  = (inl (BadRequestException "User already exists"), Fixture.db1)
  /\ (exists user db',
        @signup Fixture.bcrypt
          {| SignUpBody.name := "Bo"; SignUpBody.email := "bo@dev.books";
             SignUpBody.password := "pw" |} Fixture.db1
        = (inr {| SignUpResponse.user := delete_password user |}, db')
        /\ Db.users db' = Db.users Fixture.db1 ++ [user]
        /\ Db.myBooks db' = Db.myBooks Fixture.db1
        /\ User.email user = "bo@dev.books"
        /\ User.name user = Some "Bo"
        /\ User.password user = "$2b$10$pw")
  /\ issued (jwtService := Fixture.jwt) Fixture.ana
     = issued (jwtService := Fixture.jwt) Fixture.ana.
Proof.
  split; [|split].
  - exact (proj1 (@signup_rejects_taken_email_and_hides_password
                    Fixture.jwt Fixture.bcrypt
                    {| SignUpBody.name := "Ana again";
                       SignUpBody.email := "ana@dev.books";
                       SignUpBody.password := "pw" |} Fixture.db1)
             Fixture.ana eq_refl).
  - exact (proj1 (proj2 (@signup_rejects_taken_email_and_hides_password
                           Fixture.jwt Fixture.bcrypt
                           {| SignUpBody.name := "Bo";
                              SignUpBody.email := "bo@dev.books";
                              SignUpBody.password := "pw" |} Fixture.db1))
             eq_refl).
  - exact (proj2 (proj2 (proj2 (proj2
             (@signup_rejects_taken_email_and_hides_password
                Fixture.jwt Fixture.bcrypt
                {| SignUpBody.name := "Bo"; SignUpBody.email := "bo@dev.books";
                   SignUpBody.password := "pw" |} Fixture.db1))))
             {| SignInBody.email := "ana@dev.books";
                SignInBody.password := "s3cret" |}
             {| SignInBody.email := "ana@dev.books";
                SignInBody.password := "0ther" |}
             Fixture.db2 _ _ Fixture.db1 Fixture.db2
             eq_refl eq_refl eq_refl eq_refl).
Defined.

(* ===================================================================== *)
(** ** Reading the list back: [GET /my-books], [GET /books/:bookId]       *)
(* ===================================================================== *)

Lemma BookState_eqb_eq (a b : BookState) : BookState_eqb a b = true <-> a = b.
Proof. destruct a, b; simpl; split; intros H; congruence. Qed.

Lemma find_app_None {A : Type} (f : A -> bool) (l l' : list A) :
  find f l = None -> find f (l ++ l') = find f l'.
Proof.
  induction l as [|a l IH]; simpl; [reflexivity|].
  destruct (f a); [discriminate|exact IH].
Qed.

Lemma find_skip {A : Type} (f : A -> bool) (l l' : list A) :
  Forall (fun x => f x = false) l -> find f (l ++ l') = find f l'.
Proof.
  induction 1 as [|a l Ha _ IH]; simpl; [reflexivity|]. now rewrite Ha.
Qed.

(** With distinct ids, the first match stands where the row [e] stands. *)
Lemma first_match_position (f : MyBooks.t -> bool) (l1 l2 : list MyBooks.t)
    (e : MyBooks.t) :
  NoDup (map MyBooks.id (l1 ++ e :: l2)) ->
  find f (l1 ++ e :: l2) = Some e ->
  Forall (fun x => f x = false) l1.
Proof.
  induction l1 as [|a l1 IH]; simpl; intros Hnd Hfind; [constructor|].
  inversion Hnd as [|? ? Hnotin Hnd']; subst.
  destruct (f a) eqn:Ha.
  - exfalso. injection Hfind as ->. apply Hnotin.
    rewrite map_app. apply in_or_app. right. now left.
  - constructor; [exact Ha|now apply IH].
Qed.

(** Rewriting the found entry by one of the same pair makes the new one
    the entry found. *)
Lemma findOne_after_rewrite (where_ : MyBooksWhereInput.t) (db : Db.t)
    (l1 l2 : list MyBooks.t) (e e' : MyBooks.t) :
  wf_db db ->
  findOne where_ db = (inr (Some e), db) ->
  Db.myBooks db = l1 ++ e :: l2 ->
  matches where_ e' = true ->
  findOne where_ (Db.with_myBooks (l1 ++ e' :: l2) db)
  = (inr (Some e'), Db.with_myBooks (l1 ++ e' :: l2) db).
Proof.
  intros [Hnd _] Hfind Hrows He'.
  rewrite findOne_run in Hfind. injection Hfind as Hfind.
  rewrite Hrows in Hnd, Hfind.
  pose proof (first_match_position _ _ _ _ Hnd Hfind) as Hskip.
  rewrite findOne_run. simpl. rewrite (find_skip _ _ _ Hskip). simpl.
  now rewrite He'.
Qed.

Lemma matches_where_of (userId : Z) (bookId : string) (b : MyBooks.t) :
  matches (where_of userId bookId) b = true
  <-> MyBooks.userId b = userId /\ MyBooks.bookId b = bookId.
Proof.
  unfold matches, where_of. simpl.
  rewrite andb_true_iff, String.eqb_eq, Z.eqb_eq. tauto.
Qed.

(** What a successful [POST /books/my-books] leaves behind: the entry it
    returned is the entry of the pair, in the requested state. *)
Lemma addToMyBooks_then_findOne {axios : Catalog} (now : Z)
    (req : AuthRequest.t) (body : AddToMyBooksBody.t) (db db' : Db.t)
    (e : MyBooks.t) :
  wf_db db ->
  addToMyBooks now req body db = (inr e, db') ->
  findOne (where_of (AuthRequest.userId req) (AddToMyBooksBody.bookId body)) db'
  = (inr (Some e), db')
  /\ MyBooks.bookState e = AddToMyBooksBody.bookState body.
Proof.
  intros Hwf Hrun.
  set (w := where_of (AuthRequest.userId req) (AddToMyBooksBody.bookId body)).
  destruct (find (matches w) (Db.myBooks db)) as [e0|] eqn:Hfind.
  - assert (Hf : findOne w db = (inr (Some e0), db))
      by (rewrite findOne_run; now rewrite Hfind).
    destruct (findOne_Some_In _ _ _ Hf) as [_ Hm].
    destruct (addToMyBooks_found now req body db e0 Hwf Hf)
      as (l1 & l2 & Hrows & Hrun').
    rewrite Hrun' in Hrun. injection Hrun as <- <-.
    split; [|reflexivity].
    now apply findOne_after_rewrite with (e := e0).
  - revert Hrun. subst w. unfold where_of in Hfind.
    unfold addToMyBooks, bind. rewrite findOne_run, Hfind.
    destruct (getVolume (AddToMyBooksBody.bookId body)) as [response|];
      simpl; [|discriminate].
    unfold createMyBook. simpl.
    destruct (existsb _ (Db.users db)); simpl; [|discriminate].
    intros [= <- <-]. split; [|reflexivity].
    rewrite findOne_run. simpl. unfold where_of.
    rewrite (find_app_None _ _ _ Hfind). simpl.
    unfold matches at 1. simpl. now rewrite String.eqb_refl, Z.eqb_refl.
Qed.

Lemma filter_three_way {A : Type} (p1 p2 p3 : A -> bool) (l : list A) :
  (forall a, In a l ->
             (p1 a = true /\ p2 a = false /\ p3 a = false)
             \/ (p1 a = false /\ p2 a = true /\ p3 a = false)
             \/ (p1 a = false /\ p2 a = false /\ p3 a = true)) ->
  Permutation (filter p1 l ++ filter p2 l ++ filter p3 l) l.
Proof.
  induction l as [|a l IH]; intros Hone; [constructor|].
  assert (IH' := IH (fun b Hb => Hone b (or_intror Hb))).
  simpl.
  destruct (Hone a (or_introl eq_refl))
    as [(-> & -> & ->)|[(-> & -> & ->)|(-> & -> & ->)]].
  - simpl. now constructor.
  - symmetry. apply Permutation_cons_app. now symmetry.
  - symmetry. rewrite app_assoc. apply Permutation_cons_app.
    rewrite <- app_assoc. now symmetry.
Qed.

Lemma myBooks_run (req : AuthRequest.t) (db : Db.t) :
  exists r,
    myBooks req db = (inr r, db)
    /\ forall s,
         group s r
         = filter (fun book => BookState_eqb (MyBooks.bookState book) s)
             (filter (fun b => Z.eqb (MyBooks.userId b) (AuthRequest.userId req))
                     (Db.myBooks db)).
Proof. eexists. split; [reflexivity|]. now intros []. Qed.

(** X1. [GET /my-books] answers with three groups that split the caller's
    entries by state: an entry is in a group exactly when it is stored,
    belongs to the caller and has the group's state, and the three groups
    together are the caller's entries, each once. The store is not
    written. *)
Theorem myBooks_partitions_own_entries (req : AuthRequest.t) (db : Db.t) :
  exists r,
    myBooks req db = (inr r, db)
    /\ (forall s b,
          In b (group s r)
          <-> In b (Db.myBooks db)
              /\ MyBooks.userId b = AuthRequest.userId req
              /\ MyBooks.bookState b = s)
    /\ Permutation
         (MyBooksResponse.isReading r ++ MyBooksResponse.read r
          ++ MyBooksResponse.wantsToRead r)
         (filter (fun b => Z.eqb (MyBooks.userId b) (AuthRequest.userId req))
                 (Db.myBooks db)).
Proof.
  destruct (myBooks_run req db) as (r & Hrun & Hgroup).
  exists r. split; [exact Hrun|]. split.
  - intros s b. rewrite Hgroup, !filter_In, BookState_eqb_eq, Z.eqb_eq. tauto.
  - change (MyBooksResponse.isReading r) with (group IS_READING r).
    change (MyBooksResponse.read r) with (group READ r).
    change (MyBooksResponse.wantsToRead r) with (group WANTS_TO_READ r).
    rewrite !Hgroup. apply filter_three_way.
    intros a _. destruct (MyBooks.bookState a); simpl; tauto.
Qed.

Lemma bookDetails_run {axios : Catalog} (params : BookDetailsParams.t)
    (req : AuthRequest.t) (db : Db.t) :
  bookDetails params req db
  = match getVolume (BookDetailsParams.bookId params) with
    | None => (inl AxiosError, db)
    | Some response =>
        (inr {| BookDetailsResponse.data := response;
                BookDetailsResponse.bookState :=
                  match find (matches (where_of (AuthRequest.userId req)
                                         (BookDetailsParams.bookId params)))
                             (Db.myBooks db) with
                  | Some book => Some (MyBooks.bookState book)
                  | None => None
                  end |}, db)
    end.
Proof.
  unfold bookDetails, bind.
  now destruct (getVolume (BookDetailsParams.bookId params)).
Qed.

(** X2. [GET /books/:bookId] throws exactly when the catalog call fails,
    whether or not the caller has an entry; when it answers, the answer
    carries the catalog body, and its [bookState] is absent exactly when
    the caller has no entry for the book, entries of other users for the
    same book notwithstanding. *)
Theorem bookDetails_fails_only_with_catalog
    {axios : Catalog} (params : BookDetailsParams.t) (req : AuthRequest.t)
    (db : Db.t) :
  (getVolume (BookDetailsParams.bookId params) = None ->
   bookDetails params req db = (inl AxiosError, db))
  /\ (forall response,
        getVolume (BookDetailsParams.bookId params) = Some response ->
        exists r,
          bookDetails params req db = (inr r, db)
          /\ BookDetailsResponse.data r = response
          /\ (BookDetailsResponse.bookState r = None
              <-> forall b,
                    In b (Db.myBooks db) ->
                    MyBooks.userId b = AuthRequest.userId req ->
                    MyBooks.bookId b <> BookDetailsParams.bookId params)).
Proof.
  split.
  - intros Hget. now rewrite bookDetails_run, Hget.
  - intros response Hget. rewrite bookDetails_run, Hget.
    eexists. split; [reflexivity|]. split; [reflexivity|]. simpl.
    destruct (find _ (Db.myBooks db)) as [book|] eqn:Hfind.
    + split; [discriminate|]. intros Hnone. exfalso.
      apply find_some in Hfind. destruct Hfind as [Hin Hm].
      apply matches_where_of in Hm. destruct Hm as [Hu Hb].
      exact (Hnone book Hin Hu Hb).
    + split; [|reflexivity]. intros _ b Hin Hu Hb.
      pose proof (find_none _ _ Hfind b Hin) as Hm.
      assert (Ht : matches (where_of (AuthRequest.userId req)
                              (BookDetailsParams.bookId params)) b = true)
        by now apply matches_where_of.
      congruence.
Qed.

Lemma bookDetails_fails_only_with_catalog_witness :
  @bookDetails Fixture.axios {| BookDetailsParams.bookId := "B2" |}
    Fixture.req1 Fixture.db1 = (inl AxiosError, Fixture.db1)
  /\ exists r,
       @bookDetails Fixture.axios {| BookDetailsParams.bookId := "B1" |}
         {| AuthRequest.userId := 7 |} Fixture.db1 = (inr r, Fixture.db1)
       /\ BookDetailsResponse.data r = Fixture.B1
       /\ (BookDetailsResponse.bookState r = None
           <-> forall b,
                 In b (Db.myBooks Fixture.db1) ->
                 MyBooks.userId b = 7 -> MyBooks.bookId b <> "B1").
Proof.
  split.
  - exact (proj1 (@bookDetails_fails_only_with_catalog Fixture.axios
                    {| BookDetailsParams.bookId := "B2" |} Fixture.req1
                    Fixture.db1) eq_refl).
  - exact (proj2 (@bookDetails_fails_only_with_catalog Fixture.axios
                    {| BookDetailsParams.bookId := "B1" |}
                    {| AuthRequest.userId := 7 |} Fixture.db1)
             Fixture.B1 eq_refl).
Defined.

(* ===================================================================== *)
(** ** Requests in sequence                                               *)
(* ===================================================================== *)

(** X3. After a successful [POST /books/my-books], [GET /books/:bookId]
    by the same user for the same book, when the catalog answers, reports
    the state that was requested. *)
Theorem bookDetails_after_addToMyBooks
    {axios : Catalog} (now : Z) (req : AuthRequest.t)
    (body : AddToMyBooksBody.t) (db db' : Db.t) (e : MyBooks.t)
    (response : GoogleBook.t) :
  wf_db db ->
  addToMyBooks now req body db = (inr e, db') ->
  getVolume (AddToMyBooksBody.bookId body) = Some response ->
  bookDetails {| BookDetailsParams.bookId := AddToMyBooksBody.bookId body |}
    req db'
  = (inr {| BookDetailsResponse.data := response;
            BookDetailsResponse.bookState :=
              Some (AddToMyBooksBody.bookState body) |}, db').
Proof.
  intros Hwf Hrun Hget.
  destruct (addToMyBooks_then_findOne now req body db db' e Hwf Hrun)
    as [Hfind Hstate].
  rewrite findOne_run in Hfind. injection Hfind as Hfind.
  rewrite bookDetails_run. simpl. now rewrite Hget, Hfind, Hstate.
Qed.

Lemma bookDetails_after_addToMyBooks_witness :
  @bookDetails Fixture.axios {| BookDetailsParams.bookId := "B1" |}
    Fixture.req1
    (snd (@addToMyBooks Fixture.axios 99 Fixture.req1
            {| AddToMyBooksBody.bookId := "B1";
               AddToMyBooksBody.bookState := IS_READING |} Fixture.db1))
  = (inr {| BookDetailsResponse.data := Fixture.B1;
            BookDetailsResponse.bookState := Some IS_READING |},
     snd (@addToMyBooks Fixture.axios 99 Fixture.req1
            {| AddToMyBooksBody.bookId := "B1";
               AddToMyBooksBody.bookState := IS_READING |} Fixture.db1)).
Proof.
  exact (@bookDetails_after_addToMyBooks Fixture.axios 99 Fixture.req1
           {| AddToMyBooksBody.bookId := "B1";
              AddToMyBooksBody.bookState := IS_READING |}
           Fixture.db1 _ _ Fixture.B1 wf_db1 eq_refl eq_refl).
Defined.

(** X4. After a successful [POST /books/my-books], [GET /my-books] by the
    same user lists the returned entry in the group of the requested state
    and in no other group. *)
Theorem myBooks_after_addToMyBooks
    {axios : Catalog} (now : Z) (req : AuthRequest.t)
    (body : AddToMyBooksBody.t) (db db' : Db.t) (e : MyBooks.t) :
  wf_db db ->
  addToMyBooks now req body db = (inr e, db') ->
  exists r,
    myBooks req db' = (inr r, db')
    /\ In e (group (AddToMyBooksBody.bookState body) r)
    /\ forall s, s <> AddToMyBooksBody.bookState body -> ~ In e (group s r).
Proof.
  intros Hwf Hrun.
  destruct (addToMyBooks_then_findOne now req body db db' e Hwf Hrun)
    as [Hfind Hstate].
  destruct (findOne_Some_In _ _ _ Hfind) as [Hin Hm].
  apply matches_where_of in Hm. destruct Hm as [Hu _].
  destruct (myBooks_run req db') as (r & Hr & Hgroup).
  exists r. split; [exact Hr|]. split.
  - rewrite Hgroup, !filter_In, BookState_eqb_eq, Z.eqb_eq. tauto.
  - intros s Hs. rewrite Hgroup, !filter_In, BookState_eqb_eq. intros [_ H].
    congruence.
Qed.

Lemma myBooks_after_addToMyBooks_witness :
  exists r,
    myBooks Fixture.req1
      (snd (@addToMyBooks Fixture.axios 99 Fixture.req1
              {| AddToMyBooksBody.bookId := "B1";
                 AddToMyBooksBody.bookState := WANTS_TO_READ |} Fixture.db0))
    = (inr r,
       snd (@addToMyBooks Fixture.axios 99 Fixture.req1
              {| AddToMyBooksBody.bookId := "B1";
                 AddToMyBooksBody.bookState := WANTS_TO_READ |} Fixture.db0))
    /\ In (MyBooks.mk 1 1 "B1" WANTS_TO_READ None 300 Fixture.B1 99 99)
          (group WANTS_TO_READ r)
    /\ forall s, s <> WANTS_TO_READ ->
                 ~ In (MyBooks.mk 1 1 "B1" WANTS_TO_READ None 300 Fixture.B1
                         99 99) (group s r).
Proof.
  exact (@myBooks_after_addToMyBooks Fixture.axios 99 Fixture.req1
           {| AddToMyBooksBody.bookId := "B1";
              AddToMyBooksBody.bookState := WANTS_TO_READ |}
           Fixture.db0 _ _ wf_db0 eq_refl).
Defined.

(** X5. After a successful [POST /books/my-books], a progress report by the
    same user on the same book never throws: it returns the added entry
    with its total pages kept, its current page the smaller of the reported
    page and the total pages, and its state READ when the page reaches the
    total, the requested state otherwise. *)
Theorem updateBookReading_after_addToMyBooks
    {axios : Catalog} (now now' : Z) (req : AuthRequest.t)
    (abody : AddToMyBooksBody.t) (rbody : UpdateBookReadingBody.t)
    (db db' : Db.t) (e : MyBooks.t) :
  wf_db db ->
  addToMyBooks now req abody db = (inr e, db') ->
  exists e' db'',
    updateBookReading now'
      {| UpdateBookReadingParams.id := AddToMyBooksBody.bookId abody |}
      rbody req db' = (inr e', db'')
    /\ MyBooks.id e' = MyBooks.id e
    /\ MyBooks.totalPages e' = MyBooks.totalPages e
    /\ MyBooks.currentPage e'
       = Some (Z.min (UpdateBookReadingBody.page rbody) (MyBooks.totalPages e))
    /\ MyBooks.bookState e'
       = (if Z.geb (UpdateBookReadingBody.page rbody) (MyBooks.totalPages e)
          then READ else AddToMyBooksBody.bookState abody).
Proof.
  intros Hwf Hrun.
  destruct (addToMyBooks_then_findOne now req abody db db' e Hwf Hrun)
    as [Hfind Hstate].
  assert (Hwf' : wf_db db').
  { change db' with (snd (inr (A := Exception) e, db')). rewrite <- Hrun.
    now apply addToMyBooks_wf. }
  destruct (updateBookReading_found now'
              {| UpdateBookReadingParams.id := AddToMyBooksBody.bookId abody |}
              rbody req db' e Hwf' Hfind) as (l1 & l2 & _ & Hrun').
  eexists _, _. split; [exact Hrun'|].
  split; [reflexivity|]. split; [reflexivity|]. simpl. rewrite Hstate.
  split; [|reflexivity]. f_equal.
  destruct (Z.geb_spec (UpdateBookReadingBody.page rbody) (MyBooks.totalPages e));
    lia.
Qed.

Lemma updateBookReading_after_addToMyBooks_witness :
  exists e' db'',
    updateBookReading 100 {| UpdateBookReadingParams.id := "B1" |}
      {| UpdateBookReadingBody.page := 500 |} Fixture.req1
      (snd (@addToMyBooks Fixture.axios 99 Fixture.req1
              {| AddToMyBooksBody.bookId := "B1";
                 AddToMyBooksBody.bookState := WANTS_TO_READ |} Fixture.db0))
    = (inr e', db'')
    /\ MyBooks.id e' = 1
    /\ MyBooks.totalPages e' = 300
    /\ MyBooks.currentPage e' = Some (Z.min 500 300)
    /\ MyBooks.bookState e' = READ.
Proof.
  exact (@updateBookReading_after_addToMyBooks Fixture.axios 99 100
           Fixture.req1
           {| AddToMyBooksBody.bookId := "B1";
              AddToMyBooksBody.bookState := WANTS_TO_READ |}
           {| UpdateBookReadingBody.page := 500 |}
           Fixture.db0 _ _ wf_db0 eq_refl).
Defined.

(** The step of one progress report on the entry found: the rewritten
    entry is the one found next, and the ids stay distinct. *)
Lemma updateBookReading_next (now : Z) (params : UpdateBookReadingParams.t)
    (body : UpdateBookReadingBody.t) (req : AuthRequest.t) (db : Db.t)
    (e : MyBooks.t) :
  wf_db db ->
  findOne (where_of (AuthRequest.userId req) (UpdateBookReadingParams.id params))
          db = (inr (Some e), db) ->
  let e1 :=
    apply_update now (reading_data (UpdateBookReadingBody.page body) e) e in
  let db1 := snd (updateBookReading now params body req db) in
  findOne (where_of (AuthRequest.userId req) (UpdateBookReadingParams.id params))
          db1 = (inr (Some e1), db1)
  /\ wf_db db1
  /\ exists l1 l2,
       Db.myBooks db = l1 ++ e :: l2
       /\ db1 = Db.with_myBooks (l1 ++ e1 :: l2) db.
Proof.
  intros Hwf Hfind e1 db1.
  destruct (findOne_Some_In _ _ _ Hfind) as [_ Hm].
  destruct (updateBookReading_found now params body req db e Hwf Hfind)
    as (l1 & l2 & Hrows & Hrun).
  assert (Hdb1 : db1 = Db.with_myBooks (l1 ++ e1 :: l2) db)
    by (subst db1; now rewrite Hrun).
  split; [|split].
  - rewrite Hdb1. now apply findOne_after_rewrite with (e := e).
  - subst db1. now apply updateBookReading_wf.
  - now exists l1, l2.
Qed.

(** X6. A run of progress reports on an existing entry, whatever the pages:
    the entry of the pair is still found afterwards with its total pages
    kept; its state is READ as soon as one reported page reached the total
    pages, its first state otherwise (so a lower page reported later does
    not undo READ); its current page is the smaller of the last reported
    page and the total pages. *)
Theorem report_pages_last_page_wins
    (now : Z) (params : UpdateBookReadingParams.t) (req : AuthRequest.t)
    (pages : list Z) (db : Db.t) (e : MyBooks.t) :
  wf_db db ->
  findOne (where_of (AuthRequest.userId req) (UpdateBookReadingParams.id params))
          db = (inr (Some e), db) ->
  exists e',
    findOne (where_of (AuthRequest.userId req)
                      (UpdateBookReadingParams.id params))
            (report_pages now params req pages db)
    = (inr (Some e'), report_pages now params req pages db)
    /\ MyBooks.totalPages e' = MyBooks.totalPages e
    /\ MyBooks.bookState e'
       = (if existsb (fun page => Z.geb page (MyBooks.totalPages e)) pages
          then READ else MyBooks.bookState e)
    /\ (forall init page,
          pages = init ++ [page] ->
          MyBooks.currentPage e'
          = Some (Z.min page (MyBooks.totalPages e)))
    /\ (pages = [] -> e' = e).
Proof.
  revert db e. induction pages as [|p ps IH]; intros db e Hwf Hfind.
  - exists e. simpl. split; [exact Hfind|]. split; [reflexivity|].
    split; [reflexivity|]. split; [|reflexivity].
    intros init page H. now destruct init.
  - destruct (updateBookReading_next now params
                {| UpdateBookReadingBody.page := p |} req db e Hwf Hfind)
      as (Hfind1 & Hwf1 & _).
    simpl in Hfind1.
    destruct (IH _ _ Hwf1 Hfind1) as (e' & Hf' & Htot & Hst & Hlast & Hnil).
    exists e'. simpl. split; [exact Hf'|].
    simpl in Htot, Hst, Hlast. split; [exact Htot|]. split.
    + rewrite Hst. destruct (Z.geb p (MyBooks.totalPages e)); simpl;
        now destruct (existsb _ ps).
    + split; [|discriminate]. intros init page Hpages.
      destruct init as [|a init]; simpl in Hpages.
      * injection Hpages as -> ->. rewrite (Hnil eq_refl). simpl. f_equal.
        destruct (Z.geb_spec page (MyBooks.totalPages e)); lia.
      * injection Hpages as _ ->. now apply (Hlast init).
Qed.

Lemma report_pages_last_page_wins_witness :
  exists e',
    findOne (where_of 1 "B1")
      (report_pages 99 {| UpdateBookReadingParams.id := "B1" |} Fixture.req1
         [10; 500; 20] Fixture.db1)
    = (inr (Some e'),
       report_pages 99 {| UpdateBookReadingParams.id := "B1" |} Fixture.req1
         [10; 500; 20] Fixture.db1)
    /\ MyBooks.totalPages e' = 300
    /\ MyBooks.bookState e' = READ
    /\ (forall init page,
          [10; 500; 20] = init ++ [page] ->
          MyBooks.currentPage e' = Some (Z.min page 300))
    /\ ([10; 500; 20] = [] -> e' = Fixture.entry1).
Proof.
  exact (report_pages_last_page_wins 99
           {| UpdateBookReadingParams.id := "B1" |} Fixture.req1 [10; 500; 20]
           Fixture.db1 Fixture.entry1 wf_db1 eq_refl).
Defined.

(** With distinct ids a row stands at one place only. *)
Lemma split_at_row_unique (a b c d : list MyBooks.t) (x : MyBooks.t) :
  NoDup (map MyBooks.id (a ++ x :: b)) ->
  a ++ x :: b = c ++ x :: d -> a = c /\ b = d.
Proof.
  revert c. induction a as [|y a IH]; intros [|z c] Hnd Heq; simpl in *.
  - injection Heq as ->. now split.
  - injection Heq as Hz Hb. subst z b.
    inversion Hnd as [|? ? Hnotin _]; subst.
    exfalso. apply Hnotin. apply in_map. apply in_elt.
  - injection Heq as Hy Hd. subst y.
    inversion Hnd as [|? ? Hnotin _]; subst.
    exfalso. apply Hnotin. apply in_map. apply in_elt.
  - injection Heq as Hy Heq. subst z. inversion Hnd; subst.
    destruct (IH c) as [-> ->]; auto.
Qed.

Lemma reading_data_again (now1 now2 page : Z) (e : MyBooks.t) :
  apply_update now2
    (reading_data page (apply_update now1 (reading_data page e) e))
    (apply_update now1 (reading_data page e) e)
  = apply_update now2 (reading_data page e) e.
Proof.
  unfold apply_update, reading_data. simpl.
  now destruct (Z.geb page (MyBooks.totalPages e)).
Qed.

(** X7. Reporting the same page twice is the same as reporting it once at
    the later instant: the second report changes nothing but [updatedAt]. *)
Theorem updateBookReading_same_page_twice
    (now1 now2 : Z) (params : UpdateBookReadingParams.t)
    (body : UpdateBookReadingBody.t) (req : AuthRequest.t) (db : Db.t) :
  wf_db db ->
  snd (updateBookReading now2 params body req
         (snd (updateBookReading now1 params body req db)))
  = snd (updateBookReading now2 params body req db).
Proof.
  intros Hwf.
  set (w := where_of (AuthRequest.userId req) (UpdateBookReadingParams.id params)).
  destruct (find (matches w) (Db.myBooks db)) as [e|] eqn:Hfind.
  - assert (Hf : findOne w db = (inr (Some e), db))
      by (rewrite findOne_run; now rewrite Hfind).
    destruct (updateBookReading_next now1 params body req db e Hwf Hf)
      as (Hf1 & Hwf1 & l1 & l2 & Hrows & Hdb1).
    destruct (updateBookReading_found now2 params body req db e Hwf Hf)
      as (k1 & k2 & Hrows2 & Hrun2).
    set (e1 := apply_update now1
                 (reading_data (UpdateBookReadingBody.page body) e) e) in *.
    destruct (updateBookReading_next now2 params body req _ e1 Hwf1 Hf1)
      as (_ & _ & m1 & m2 & Hrows1 & Hdb2).
    rewrite Hdb2, Hrun2. simpl. unfold e1. rewrite reading_data_again.
    rewrite Hdb1 in Hrows1. simpl in Hrows1.
    destruct Hwf as [Hnd _]. destruct Hwf1 as [Hnd1 _].
    rewrite Hdb1 in Hnd1. simpl in Hnd1.
    destruct (split_at_row_unique _ _ _ _ _ Hnd1 Hrows1) as [<- <-].
    rewrite Hrows in Hnd, Hrows2.
    destruct (split_at_row_unique _ _ _ _ _ Hnd Hrows2) as [<- <-].
    rewrite Hdb1. reflexivity.
  - assert (Hf : findOne w db = (inr None, db))
      by (rewrite findOne_run; now rewrite Hfind).
    now rewrite !(updateBookReading_missing _ params body req db Hf).
Qed.

Lemma updateBookReading_same_page_twice_witness :
  snd (updateBookReading 100 {| UpdateBookReadingParams.id := "B1" |}
         {| UpdateBookReadingBody.page := 200 |} Fixture.req1
         (snd (updateBookReading 99 {| UpdateBookReadingParams.id := "B1" |}
                 {| UpdateBookReadingBody.page := 200 |} Fixture.req1
                 Fixture.db1)))
  = snd (updateBookReading 100 {| UpdateBookReadingParams.id := "B1" |}
           {| UpdateBookReadingBody.page := 200 |} Fixture.req1 Fixture.db1).
Proof.
  exact (updateBookReading_same_page_twice 99 100
           {| UpdateBookReadingParams.id := "B1" |}
           {| UpdateBookReadingBody.page := 200 |} Fixture.req1 Fixture.db1
           wf_db1).
Defined.

(* ===================================================================== *)
(** ** What the writing handlers keep                                     *)
(* ===================================================================== *)

Lemma unique_pairs_rewrite (db : Db.t) (l1 l2 : list MyBooks.t)
    (e e' : MyBooks.t) :
  Db.myBooks db = l1 ++ e :: l2 ->
  pair_of e' = pair_of e ->
  unique_pairs db ->
  unique_pairs (Db.with_myBooks (l1 ++ e' :: l2) db).
Proof.
  unfold unique_pairs. simpl. intros -> Hpair.
  rewrite !map_app. simpl. now rewrite Hpair.
Qed.

Lemma pair_not_stored (userId : Z) (bookId : string) (rows : list MyBooks.t) :
  find (matches (where_of userId bookId)) rows = None ->
  ~ In (userId, bookId) (map pair_of rows).
Proof.
  intros Hfind Hin. apply in_map_iff in Hin. destruct Hin as (b & Hb & Hin).
  pose proof (find_none _ _ Hfind b Hin) as Hm.
  assert (Ht : matches (where_of userId bookId) b = true).
  { apply matches_where_of. unfold pair_of in Hb. now injection Hb. }
  congruence.
Qed.

Lemma updateBookReading_unique_pairs (now : Z)
    (params : UpdateBookReadingParams.t) (body : UpdateBookReadingBody.t)
    (req : AuthRequest.t) (db : Db.t) :
  wf_db db -> unique_pairs db ->
  unique_pairs (snd (updateBookReading now params body req db)).
Proof.
  intros Hwf Hun.
  set (w := where_of (AuthRequest.userId req) (UpdateBookReadingParams.id params)).
  destruct (find (matches w) (Db.myBooks db)) as [e|] eqn:Hfind.
  - assert (Hf : findOne w db = (inr (Some e), db))
      by (rewrite findOne_run; now rewrite Hfind).
    destruct (updateBookReading_found now params body req db e Hwf Hf)
      as (l1 & l2 & Hrows & ->).
    simpl. now apply unique_pairs_rewrite with (e := e).
  - assert (Hf : findOne w db = (inr None, db))
      by (rewrite findOne_run; now rewrite Hfind).
    now rewrite (updateBookReading_missing now params body req db Hf).
Qed.

Lemma addToMyBooks_unique_pairs {axios : Catalog} (now : Z)
    (req : AuthRequest.t) (body : AddToMyBooksBody.t) (db : Db.t) :
  wf_db db -> unique_pairs db ->
  unique_pairs (snd (addToMyBooks now req body db)).
Proof.
  intros Hwf Hun.
  set (w := where_of (AuthRequest.userId req) (AddToMyBooksBody.bookId body)).
  destruct (find (matches w) (Db.myBooks db)) as [e|] eqn:Hfind.
  - assert (Hf : findOne w db = (inr (Some e), db))
      by (rewrite findOne_run; now rewrite Hfind).
    destruct (addToMyBooks_found now req body db e Hwf Hf)
      as (l1 & l2 & Hrows & ->).
    simpl. now apply unique_pairs_rewrite with (e := e).
  - subst w. pose proof (pair_not_stored _ _ _ Hfind) as Hfresh.
    unfold where_of in Hfind.
    unfold addToMyBooks, bind. rewrite findOne_run, Hfind.
    destruct (getVolume (AddToMyBooksBody.bookId body)) as [response|];
      simpl; [|exact Hun].
    unfold createMyBook. simpl.
    destruct (existsb _ (Db.users db)); simpl; [|exact Hun].
    unfold unique_pairs. simpl. rewrite map_app. simpl.
    apply NoDup_app; [exact Hun|repeat constructor; now intros []|].
    intros p Hp [<-|[]]. exact (Hfresh Hp).
Qed.

(** X8. Both writing reading-list handlers keep the rule that the schema
    does not enforce: when no (userId, bookId) pair has two entries before
    the request, none has two after it. *)
Theorem reading_list_keeps_one_entry_per_pair
    {axios : Catalog} (now : Z) (req : AuthRequest.t)
    (abody : AddToMyBooksBody.t) (params : UpdateBookReadingParams.t)
    (rbody : UpdateBookReadingBody.t) (db : Db.t) :
  wf_db db -> unique_pairs db ->
  unique_pairs (snd (addToMyBooks now req abody db))
  /\ unique_pairs (snd (updateBookReading now params rbody req db)).
Proof.
  intros Hwf Hun. split.
  - now apply addToMyBooks_unique_pairs.
  - now apply updateBookReading_unique_pairs.
Qed.

Lemma unique_pairs_db1 : unique_pairs Fixture.db1.
Proof. repeat constructor. now intros []. Qed.

Lemma reading_list_keeps_one_entry_per_pair_witness :
  unique_pairs
    (snd (@addToMyBooks Fixture.axios 99 {| AuthRequest.userId := 1 |}
            {| AddToMyBooksBody.bookId := "B1";
               AddToMyBooksBody.bookState := READ |} Fixture.db1))
  /\ unique_pairs
       (snd (updateBookReading 99 {| UpdateBookReadingParams.id := "B1" |}
               {| UpdateBookReadingBody.page := 7 |}
               {| AuthRequest.userId := 1 |} Fixture.db1)).
Proof.
  exact (@reading_list_keeps_one_entry_per_pair Fixture.axios 99
           {| AuthRequest.userId := 1 |}
           {| AddToMyBooksBody.bookId := "B1";
              AddToMyBooksBody.bookState := READ |}
           {| UpdateBookReadingParams.id := "B1" |}
           {| UpdateBookReadingBody.page := 7 |} Fixture.db1
           wf_db1 unique_pairs_db1).
Defined.

(** X9. A writing request that throws has written nothing, and throws one
    of few exceptions: adding a book throws the catalog's failure or the
    store's missing-record error for the user it connects to; a progress
    report throws only "Cannot update reading position"; sign-up throws
    only "User already exists". *)
Theorem failed_request_writes_nothing
    {bcrypt : Bcrypt} {axios : Catalog} (now : Z) (req : AuthRequest.t)
    (abody : AddToMyBooksBody.t) (params : UpdateBookReadingParams.t)
    (rbody : UpdateBookReadingBody.t) (sbody : SignUpBody.t) (db : Db.t) :
  wf_db db ->
  (forall ex db',
     addToMyBooks now req abody db = (inl ex, db') ->
     db' = db
     /\ (ex = AxiosError \/ ex = PrismaClientKnownRequestError "P2025"))
  /\ (forall ex db',
        updateBookReading now params rbody req db = (inl ex, db') ->
        db' = db /\ ex = Error "Cannot update reading position")
  /\ (forall ex db',
        signup sbody db = (inl ex, db') ->
        db' = db /\ ex = BadRequestException "User already exists").
Proof.
  intros Hwf. split; [|split]; intros ex db'.
  - set (w := where_of (AuthRequest.userId req) (AddToMyBooksBody.bookId abody)).
    destruct (find (matches w) (Db.myBooks db)) as [e|] eqn:Hfind.
    + assert (Hf : findOne w db = (inr (Some e), db))
        by (rewrite findOne_run; now rewrite Hfind).
      destruct (addToMyBooks_found now req abody db e Hwf Hf)
        as (l1 & l2 & _ & ->). discriminate.
    + subst w. unfold where_of in Hfind.
      unfold addToMyBooks, bind. rewrite findOne_run, Hfind.
      destruct (getVolume (AddToMyBooksBody.bookId abody)) as [response|];
        simpl; [|intros [= <- <-]; auto].
      unfold createMyBook. simpl.
      destruct (existsb _ (Db.users db)); simpl; [discriminate|].
      intros [= <- <-]. auto.
  - set (w := where_of (AuthRequest.userId req)
                (UpdateBookReadingParams.id params)).
    destruct (find (matches w) (Db.myBooks db)) as [e|] eqn:Hfind.
    + assert (Hf : findOne w db = (inr (Some e), db))
        by (rewrite findOne_run; now rewrite Hfind).
      destruct (updateBookReading_found now params rbody req db e Hwf Hf)
        as (l1 & l2 & _ & ->). discriminate.
    + assert (Hf : findOne w db = (inr None, db))
        by (rewrite findOne_run; now rewrite Hfind).
      rewrite (updateBookReading_missing now params rbody req db Hf).
      intros [= <- <-]. auto.
  - rewrite signup_run.
    destruct (find _ (Db.users db)); [|discriminate].
    intros [= <- <-]. auto.
Qed.

Lemma failed_request_writes_nothing_witness :
  (Fixture.db1 = Fixture.db1
   /\ (AxiosError = AxiosError
       \/ AxiosError = PrismaClientKnownRequestError "P2025"))
  /\ (Fixture.db1 = Fixture.db1
      /\ Error "Cannot update reading position"
         = Error "Cannot update reading position")
  /\ (Fixture.db1 = Fixture.db1
      /\ BadRequestException "User already exists"
         = BadRequestException "User already exists").
Proof.
  destruct (@failed_request_writes_nothing Fixture.bcrypt Fixture.axios 99
              Fixture.req1
              {| AddToMyBooksBody.bookId := "B2";
                 AddToMyBooksBody.bookState := READ |}
              {| UpdateBookReadingParams.id := "B2" |}
              {| UpdateBookReadingBody.page := 7 |}
              {| SignUpBody.name := "Ana"; SignUpBody.email := "ana@dev.books";
                 SignUpBody.password := "pw" |}
              Fixture.db1 wf_db1) as (Ha & Hr & Hs).
  split; [exact (Ha _ _ eq_refl)|].
  split; [exact (Hr _ _ eq_refl)|exact (Hs _ _ eq_refl)].
Defined.

(** X10. When the pair already has an entry, adding the book does not
    consult the catalog: the outcome is the same under any two catalogs,
    a failing one included. *)
Theorem addToMyBooks_existing_ignores_catalog
    (catalog1 catalog2 : Catalog) (now : Z) (req : AuthRequest.t)
    (body : AddToMyBooksBody.t) (db : Db.t) (e : MyBooks.t) :
  findOne (where_of (AuthRequest.userId req) (AddToMyBooksBody.bookId body))
          db = (inr (Some e), db) ->
  @addToMyBooks catalog1 now req body db
  = @addToMyBooks catalog2 now req body db.
Proof.
  intros Hfind. unfold addToMyBooks, bind. unfold where_of in Hfind.
  now rewrite Hfind.
Qed.

Lemma addToMyBooks_existing_ignores_catalog_witness :
  @addToMyBooks Fixture.axios 99 Fixture.req1
    {| AddToMyBooksBody.bookId := "B1"; AddToMyBooksBody.bookState := READ |}
    Fixture.db1
  = @addToMyBooks {| getVolume := fun _ => None |} 99 Fixture.req1
      {| AddToMyBooksBody.bookId := "B1"; AddToMyBooksBody.bookState := READ |}
      Fixture.db1.
Proof.
  exact (addToMyBooks_existing_ignores_catalog Fixture.axios
           {| getVolume := fun _ => None |} 99 Fixture.req1
           {| AddToMyBooksBody.bookId := "B1";
              AddToMyBooksBody.bookState := READ |}
           Fixture.db1 Fixture.entry1 eq_refl).
Defined.

(* ===================================================================== *)
(** ** More on the session handlers                                       *)
(* ===================================================================== *)

Lemma split_space_not_nil (s : string) : split_space s <> [].
Proof.
  induction s as [|c s IH]; simpl; [discriminate|].
  destruct (Ascii.eqb c " "); [discriminate|].
  destruct (split_space s); discriminate.
Qed.

Lemma split_space_no_space (s : string) :
  no_space s = true -> split_space s = [s].
Proof.
  induction s as [|c s IH]; simpl; [reflexivity|].
  destruct (Ascii.eqb c " "); simpl; [discriminate|].
  intros H. now rewrite (IH H).
Qed.

Lemma split_space_scheme (scheme rest : string) :
  no_space scheme = true ->
  split_space (scheme ++ " " ++ rest)%string = scheme :: split_space rest.
Proof.
  induction scheme as [|c s IH]; simpl; [reflexivity|].
  destruct (Ascii.eqb c " "); simpl; [discriminate|].
  intros H. specialize (IH H). simpl in IH. now rewrite IH.
Qed.

(** X11. [split(' ')] loses nothing: the pieces of a header, joined by
    single spaces, are the header; so the credential [refresh] reads is
    the text between the first and the second space. *)
Theorem split_space_join (s : string) :
  String.concat " " (split_space s) = s.
Proof.
  induction s as [|c s IH]; simpl; [reflexivity|].
  destruct (Ascii.eqb_spec c " ") as [->|_].
  - simpl. pose proof (split_space_not_nil s) as Hne.
    destruct (split_space s) as [|w ws]; [contradiction|].
    now rewrite IH.
  - pose proof (split_space_not_nil s) as Hne.
    destruct (split_space s) as [|w ws]; [contradiction|].
    rewrite <- IH. simpl. now destruct ws.
Qed.

Section SessionMore.

Context {jwtService : JwtService} {bcrypt : Bcrypt}.

(** X12. Sign-in and refresh never write, whatever the outcome, and each
    throws one exception only: sign-in "Invalid credentials" both for an
    unknown email and for a wrong password, refresh "Cannot refresh
    session". Sign-in rejects an email no user has and a password bcrypt
    does not accept for the user of the email, and answers when bcrypt
    accepts it. *)
Theorem session_reads_only_and_fails_alike
    (body : SignInBody.t) (header : RefreshHeaders.t) (db : Db.t) :
  snd (signin body db) = db
  /\ snd (refresh header db) = db
  /\ (forall ex db',
        signin body db = (inl ex, db') ->
        ex = UnauthorizedException "Invalid credentials")
  /\ (forall ex db',
        refresh header db = (inl ex, db') ->
        ex = UnauthorizedException "Cannot refresh session")
  /\ (UserService.findOne (UserService.email (SignInBody.email body)) db
      = (inr None, db) ->
      signin body db
      = (inl (UnauthorizedException "Invalid credentials"), db))
  /\ (forall user,
        UserService.findOne (UserService.email (SignInBody.email body)) db
        = (inr (Some user), db) ->
        compare (SignInBody.password body) (User.password user) = false ->
        signin body db
        = (inl (UnauthorizedException "Invalid credentials"), db))
  /\ (forall user,
        UserService.findOne (UserService.email (SignInBody.email body)) db
        = (inr (Some user), db) ->
        compare (SignInBody.password body) (User.password user) = true ->
        exists r,
          signin body db = (inr r, db)
          /\ SignInResponse.user r = delete_password user).
Proof.
  rewrite signin_run, refresh_run, UserService_findOne_run.
  split; [|split; [|split; [|split; [|split; [|split]]]]].
  - destruct (find _ (Db.users db)); [|reflexivity].
    now destruct (compare _ _).
  - destruct (presented header); [|reflexivity].
    destruct (indexOf_is_minus1 _ _); [reflexivity|].
    now destruct (find _ (Db.users db)).
  - intros ex db'. destruct (find _ (Db.users db)); [|congruence].
    destruct (compare _ _); congruence.
  - intros ex db'. destruct (presented header); [|congruence].
    destruct (indexOf_is_minus1 _ _); [congruence|].
    destruct (find _ (Db.users db)); congruence.
  - intros [= ->]. reflexivity.
  - intros user [= ->] Hcompare. now rewrite Hcompare.
  - intros user [= ->] Hcompare. rewrite Hcompare.
    eexists. split; reflexivity.
Qed.

(** X13. A user who has just signed up can sign in with the same email and
    password, given that bcrypt accepts a password against its own hash;
    the user in the answer is the user sign-up answered with. *)
Theorem signin_after_signup
    (body : SignUpBody.t) (db db' : Db.t) (r : SignUpResponse.t) :
  signup body db = (inr r, db') ->
  compare (SignUpBody.password body) (hash (SignUpBody.password body) 10)
  = true ->
  exists r',
    signin {| SignInBody.email := SignUpBody.email body;
              SignInBody.password := SignUpBody.password body |} db'
    = (inr r', db')
    /\ SignInResponse.user r' = SignUpResponse.user r.
Proof.
  rewrite signup_run.
  destruct (find _ (Db.users db)) eqn:Hfind; [discriminate|].
  intros [= <- <-] Hcompare. rewrite signin_run. simpl.
  rewrite (find_app_None _ _ _ Hfind). simpl.
  rewrite String.eqb_refl. simpl. rewrite Hcompare.
  eexists. split; reflexivity.
Qed.

(** X14. Sign-up keeps emails unique, and once it succeeded every later
    sign-up with that email, whatever the name and password, throws
    "User already exists" and writes nothing. *)
Theorem signup_keeps_emails_unique
    (body body2 : SignUpBody.t) (db : Db.t) :
  unique_emails db ->
  unique_emails (snd (signup body db))
  /\ (SignUpBody.email body2 = SignUpBody.email body ->
      snd (signup body2 (snd (signup body db))) = snd (signup body db)
      /\ fst (signup body2 (snd (signup body db)))
         = inl (BadRequestException "User already exists")).
Proof.
  intros Hun. rewrite !signup_run.
  destruct (find _ (Db.users db)) as [u|] eqn:Hfind; simpl.
  - split; [exact Hun|]. intros ->. now rewrite Hfind.
  - split.
    + unfold unique_emails. simpl. rewrite map_app. simpl.
      apply NoDup_app; [exact Hun|repeat constructor; now intros []|].
      intros e He [<-|[]]. apply in_map_iff in He.
      destruct He as (u & Hu & Hin).
      pose proof (find_none _ _ Hfind u Hin) as Hm. simpl in Hm.
      apply String.eqb_neq in Hm. contradiction.
    + intros ->. rewrite (find_app_None _ _ _ Hfind). simpl.
      now rewrite String.eqb_refl.
Qed.

(** X15. A header with no space in it presents no credential: refresh
    answers Unauthorized whatever the JWT service would accept. *)
Theorem refresh_without_token_is_unauthorized
    (header : RefreshHeaders.t) (db : Db.t) :
  no_space (RefreshHeaders.authorization header) = true ->
  refresh header db
  = (inl (UnauthorizedException "Cannot refresh session"), db).
Proof.
  intros Hns. rewrite refresh_run. unfold presented.
  now rewrite (split_space_no_space _ Hns).
Qed.

(** X16. Refresh does not look at the first word of the header: any word
    in place of "Bearer" gives the same outcome. *)
Theorem refresh_ignores_scheme
    (scheme rest : string) (db : Db.t) :
  no_space scheme = true ->
  refresh {| RefreshHeaders.authorization := (scheme ++ " " ++ rest)%string |}
    db
  = refresh {| RefreshHeaders.authorization := ("Bearer " ++ rest)%string |}
      db.
Proof.
  intros Hns. rewrite !refresh_run. unfold presented.
  cbn [RefreshHeaders.authorization].
  change ("Bearer " ++ rest)%string with ("Bearer" ++ " " ++ rest)%string.
  rewrite (split_space_scheme scheme rest Hns).
  now rewrite (split_space_scheme "Bearer" rest eq_refl).
Qed.

(** X17. The pair a sign-in issues, at refresh, when the JWT service
    decodes the two tokens to what was signed and they contain no space:
    the refresh token sent as "Bearer <token>" is accepted, the access
    token is answered with Unauthorized. *)
Theorem refresh_accepts_refresh_token_only
    (body : SignInBody.t) (db db' : Db.t) (r : SignInResponse.t) :
  signin body db = (inr r, db') ->
  verifyAsync (SignInResponse.refreshToken r)
  = Some {| AccessTokenPayload.scope := ["refreshToken"];
            AccessTokenPayload.userId :=
              UserModel.id (SignInResponse.user r) |} ->
  verifyAsync (SignInResponse.accessToken r)
  = Some {| AccessTokenPayload.scope := ["accessToken"];
            AccessTokenPayload.userId :=
              UserModel.id (SignInResponse.user r) |} ->
  no_space (SignInResponse.refreshToken r) = true ->
  no_space (SignInResponse.accessToken r) = true ->
  (exists r',
     refresh {| RefreshHeaders.authorization :=
                  ("Bearer " ++ SignInResponse.refreshToken r)%string |} db'
     = (inr r', db'))
  /\ refresh {| RefreshHeaders.authorization :=
                  ("Bearer " ++ SignInResponse.accessToken r)%string |} db'
     = (inl (UnauthorizedException "Cannot refresh session"), db').
Proof.
  rewrite signin_run.
  destruct (find _ (Db.users db)) as [u|] eqn:Hfind; [|discriminate].
  destruct (compare _ _); [|discriminate].
  intros [= <- <-]. simpl. intros Hvr Hva Hnr Hna.
  rewrite !refresh_run. unfold presented. simpl.
  rewrite (split_space_no_space _ Hnr), (split_space_no_space _ Hna). simpl.
  rewrite Hvr, Hva. simpl. split; [|reflexivity].
  apply find_some in Hfind. destruct Hfind as [Hin _].
  destruct (find (UserService.matches (UserService.id (User.id u)))
                 (Db.users db)) as [u'|] eqn:Hid.
  - now eexists.
  - pose proof (find_none _ _ Hid u Hin) as Hm. simpl in Hm.
    rewrite Z.eqb_refl in Hm. discriminate.
Qed.

End SessionMore.

Lemma signin_after_signup_witness :
  exists r',
    @signin Fixture.jwt Fixture.bcrypt
      {| SignInBody.email := "bo@dev.books"; SignInBody.password := "pw" |}
      (snd (@signup Fixture.bcrypt
              {| SignUpBody.name := "Bo"; SignUpBody.email := "bo@dev.books";
                 SignUpBody.password := "pw" |} Fixture.db1))
    = (inr r',
       snd (@signup Fixture.bcrypt
              {| SignUpBody.name := "Bo"; SignUpBody.email := "bo@dev.books";
                 SignUpBody.password := "pw" |} Fixture.db1))
    /\ SignInResponse.user r'
       = {| UserModel.id := 2; UserModel.name := Some "Bo";
            UserModel.email := "bo@dev.books"; UserModel.avatar := None |}.
Proof.
  exact (@signin_after_signup Fixture.jwt Fixture.bcrypt
           {| SignUpBody.name := "Bo"; SignUpBody.email := "bo@dev.books";
              SignUpBody.password := "pw" |}
           Fixture.db1 _ _ eq_refl eq_refl).
Defined.

Lemma unique_emails_db1 : unique_emails Fixture.db1.
Proof. repeat constructor. now intros []. Qed.

Lemma signup_keeps_emails_unique_witness :
  unique_emails
    (snd (@signup Fixture.bcrypt
            {| SignUpBody.name := "Bo"; SignUpBody.email := "bo@dev.books";
               SignUpBody.password := "pw" |} Fixture.db1))
  /\ fst (@signup Fixture.bcrypt
            {| SignUpBody.name := "Bob"; SignUpBody.email := "bo@dev.books";
               SignUpBody.password := "other" |}
            (snd (@signup Fixture.bcrypt
                    {| SignUpBody.name := "Bo";
                       SignUpBody.email := "bo@dev.books";
                       SignUpBody.password := "pw" |} Fixture.db1)))
     = inl (BadRequestException "User already exists").
Proof.
  destruct (@signup_keeps_emails_unique Fixture.bcrypt
              {| SignUpBody.name := "Bo"; SignUpBody.email := "bo@dev.books";
                 SignUpBody.password := "pw" |}
              {| SignUpBody.name := "Bob"; SignUpBody.email := "bo@dev.books";
                 SignUpBody.password := "other" |}
              Fixture.db1 unique_emails_db1) as [Hun Hagain].
  split; [exact Hun|exact (proj2 (Hagain eq_refl))].
Defined.

Lemma refresh_without_token_is_unauthorized_witness :
  @refresh Fixture.jwt {| RefreshHeaders.authorization := "Bearer" |}
    Fixture.db1
  = (inl (UnauthorizedException "Cannot refresh session"), Fixture.db1).
Proof.
  exact (@refresh_without_token_is_unauthorized Fixture.jwt
           {| RefreshHeaders.authorization := "Bearer" |} Fixture.db1
           eq_refl).
Defined.

Lemma refresh_ignores_scheme_witness :
  @refresh Fixture.jwt
    {| RefreshHeaders.authorization := "Basic refresh-of-1" |} Fixture.db1
  = @refresh Fixture.jwt
      {| RefreshHeaders.authorization := "Bearer refresh-of-1" |} Fixture.db1.
Proof.
  exact (@refresh_ignores_scheme Fixture.jwt "Basic" "refresh-of-1"
           Fixture.db1 eq_refl).
Defined.

Lemma refresh_accepts_refresh_token_only_witness :
  (exists r',
     @refresh Tokens.jwt
       {| RefreshHeaders.authorization := "Bearer refreshToken-of-1" |}
       Fixture.db1 = (inr r', Fixture.db1))
  /\ @refresh Tokens.jwt
       {| RefreshHeaders.authorization := "Bearer accessToken-of-1" |}
       Fixture.db1
     = (inl (UnauthorizedException "Cannot refresh session"), Fixture.db1).
Proof.
  exact (@refresh_accepts_refresh_token_only Tokens.jwt Fixture.bcrypt
           {| SignInBody.email := "ana@dev.books";
              SignInBody.password := "s3cret" |}
           Fixture.db1 _ _ eq_refl eq_refl eq_refl eq_refl eq_refl).
Defined.

(* ===================================================================== *)
(** ** Every store the writing requests can build                         *)
(* ===================================================================== *)

Lemma signup_myBooks {bcrypt : Bcrypt} (body : SignUpBody.t) (db : Db.t) :
  Db.myBooks (snd (signup body db)) = Db.myBooks db.
Proof. rewrite signup_run. now destruct (find _ (Db.users db)). Qed.

Lemma signup_unique_emails {bcrypt : Bcrypt} (body : SignUpBody.t)
    (db : Db.t) :
  unique_emails db -> unique_emails (snd (signup body db)).
Proof.
  intros Hun. rewrite signup_run.
  destruct (find _ (Db.users db)) as [u|] eqn:Hfind; simpl; [exact Hun|].
  unfold unique_emails. simpl. rewrite map_app. simpl.
  apply NoDup_app; [exact Hun|repeat constructor; now intros []|].
  intros e He [<-|[]]. apply in_map_iff in He.
  destruct He as (u & Hu & Hin).
  pose proof (find_none _ _ Hfind u Hin) as Hm. simpl in Hm.
  apply String.eqb_neq in Hm. contradiction.
Qed.

Lemma serve_keeps_invariant {bcrypt : Bcrypt} {axios : Catalog}
    (r : Request) (db : Db.t) :
  store_invariant db -> store_invariant (serve r db).
Proof.
  intros (Hwf & Hpairs & Hemails & Hpages).
  destruct r as [body|now req body|now params body req]; simpl.
  - split; [now apply signup_wf|]. unfold unique_pairs.
    rewrite signup_myBooks. split; [exact Hpairs|].
    split; [now apply signup_unique_emails|exact Hpages].
  - split; [now apply addToMyBooks_wf|].
    split; [now apply addToMyBooks_unique_pairs|]. split.
    + unfold unique_emails.
      now rewrite (write_step_users _ _ _ (addToMyBooks_step now req body db Hwf)).
    + apply addToMyBooks_keeps; try assumption.
      * intros b Hb. unfold page_le_total. now rewrite Hb.
      * intros s b Hb. exact Hb.
  - split; [now apply updateBookReading_wf|].
    split; [now apply updateBookReading_unique_pairs|]. split.
    + unfold unique_emails.
      now rewrite (write_step_users _ _ _
                     (updateBookReading_step now params body req db Hwf)).
    + apply updateBookReading_keeps; try assumption.
      intros e _. unfold page_le_total. simpl.
      destruct (Z.geb_spec (UpdateBookReadingBody.page body)
                           (MyBooks.totalPages e)); lia.
Qed.

(** X18. Starting from the empty store, after any sequence of sign-ups,
    book additions and progress reports, by any users, with any bodies
    and whatever the catalog answers: entry ids are distinct and below the
    counter, no (userId, bookId) pair has two entries, no two users share
    an email, and every entry whose current page is set has it at most its
    total pages. *)
Theorem served_store_invariant
    {bcrypt : Bcrypt} {axios : Catalog} (requests : list Request) :
  store_invariant (serve_all requests Db.empty).
Proof.
  assert (H0 : store_invariant Db.empty)
    by (repeat split; constructor).
  revert H0. generalize Db.empty as db. unfold serve_all.
  induction requests as [|r rs IH]; intros db Hdb; simpl; [exact Hdb|].
  apply IH. now apply serve_keeps_invariant.
Qed.

(* ===================================================================== *)
(** ** One user's requests and another user's view                        *)
(* ===================================================================== *)

Lemma find_filter {A : Type} (f g : A -> bool) (l : list A) :
  (forall x, f x = true -> g x = true) ->
  find f (filter g l) = find f l.
Proof.
  intros Hfg. induction l as [|a l IH]; simpl; [reflexivity|].
  destruct (g a) eqn:Hg; simpl.
  - now rewrite IH.
  - destruct (f a) eqn:Hf; [|exact IH].
    rewrite (Hfg a Hf) in Hg. discriminate.
Qed.

Lemma write_step_other_user (userA userB : Z) (bookId : string)
    (db db' : Db.t) :
  write_step (where_of userB bookId) db db' ->
  userA <> userB ->
  filter (fun b => Z.eqb (MyBooks.userId b) userA) (Db.myBooks db')
  = filter (fun b => Z.eqb (MyBooks.userId b) userA) (Db.myBooks db).
Proof.
  intros Hstep Hne.
  assert (Hout : forall b, matches (where_of userB bookId) b = true ->
                           Z.eqb (MyBooks.userId b) userA = false).
  { intros b Hb. apply matches_where_of in Hb. destruct Hb as [Hu _].
    apply Z.eqb_neq. congruence. }
  destruct Hstep as [|row Hrow _|l1 l2 e e' Hrows He He' _ _]; simpl.
  - reflexivity.
  - rewrite filter_app. simpl. rewrite (Hout _ Hrow). apply app_nil_r.
  - rewrite Hrows, !filter_app. simpl.
    now rewrite (Hout _ He), (Hout _ He').
Qed.

Lemma myBooks_only_own (req : AuthRequest.t) (db1 db2 : Db.t) :
  filter (fun b => Z.eqb (MyBooks.userId b) (AuthRequest.userId req))
         (Db.myBooks db1)
  = filter (fun b => Z.eqb (MyBooks.userId b) (AuthRequest.userId req))
           (Db.myBooks db2) ->
  fst (myBooks req db1) = fst (myBooks req db2).
Proof.
  unfold myBooks, bind, findAll, query. simpl. now intros ->.
Qed.

Lemma bookDetails_only_own {axios : Catalog} (params : BookDetailsParams.t)
    (req : AuthRequest.t) (db1 db2 : Db.t) :
  filter (fun b => Z.eqb (MyBooks.userId b) (AuthRequest.userId req))
         (Db.myBooks db1)
  = filter (fun b => Z.eqb (MyBooks.userId b) (AuthRequest.userId req))
           (Db.myBooks db2) ->
  fst (bookDetails params req db1) = fst (bookDetails params req db2).
Proof.
  intros Hown. rewrite !bookDetails_run.
  destruct (getVolume (BookDetailsParams.bookId params)); [|reflexivity].
  simpl.
  assert (Hsub : forall x,
            matches (where_of (AuthRequest.userId req)
                       (BookDetailsParams.bookId params)) x = true ->
            Z.eqb (MyBooks.userId x) (AuthRequest.userId req) = true).
  { intros x Hx. apply matches_where_of in Hx. now apply Z.eqb_eq. }
  rewrite <- (find_filter _ _ (Db.myBooks db1) Hsub).
  rewrite <- (find_filter _ _ (Db.myBooks db2) Hsub).
  now rewrite Hown.
Qed.

(** X19. What one user adds or reports never changes what another user
    is answered: [GET /my-books] and [GET /books/:bookId] by user A answer
    the same before and after a [POST /books/my-books] or a
    [PUT /books/:id/reading] by a different user B. *)
Theorem other_users_writes_do_not_show
    {axios : Catalog} (now : Z) (reqA reqB : AuthRequest.t)
    (abody : AddToMyBooksBody.t) (params : UpdateBookReadingParams.t)
    (rbody : UpdateBookReadingBody.t) (dparams : BookDetailsParams.t)
    (db : Db.t) :
  wf_db db ->
  AuthRequest.userId reqA <> AuthRequest.userId reqB ->
  let db_add := snd (addToMyBooks now reqB abody db) in
  let db_read := snd (updateBookReading now params rbody reqB db) in
  fst (myBooks reqA db_add) = fst (myBooks reqA db)
  /\ fst (myBooks reqA db_read) = fst (myBooks reqA db)
  /\ fst (bookDetails dparams reqA db_add) = fst (bookDetails dparams reqA db)
  /\ fst (bookDetails dparams reqA db_read)
     = fst (bookDetails dparams reqA db).
Proof.
  intros Hwf Hne db_add db_read.
  pose proof (write_step_other_user _ _ _ _ _
                (addToMyBooks_step now reqB abody db Hwf) Hne) as Ha.
  pose proof (write_step_other_user _ _ _ _ _
                (updateBookReading_step now params rbody reqB db Hwf) Hne)
    as Hr.
  split; [now apply myBooks_only_own|].
  split; [now apply myBooks_only_own|].
  split; now apply bookDetails_only_own.
Qed.

Lemma other_users_writes_do_not_show_witness :
  let reqA := {| AuthRequest.userId := 2 |} in
  let dparams := {| BookDetailsParams.bookId := "B1" |} in
  let db_add :=
    snd (@addToMyBooks Fixture.axios 99 Fixture.req1
           {| AddToMyBooksBody.bookId := "B1";
              AddToMyBooksBody.bookState := READ |} Fixture.db1) in
  let db_read :=
    snd (updateBookReading 99 {| UpdateBookReadingParams.id := "B1" |}
           {| UpdateBookReadingBody.page := 500 |} Fixture.req1 Fixture.db1) in
  fst (myBooks reqA db_add) = fst (myBooks reqA Fixture.db1)
  /\ fst (myBooks reqA db_read) = fst (myBooks reqA Fixture.db1)
  /\ fst (@bookDetails Fixture.axios dparams reqA db_add)
     = fst (@bookDetails Fixture.axios dparams reqA Fixture.db1)
  /\ fst (@bookDetails Fixture.axios dparams reqA db_read)
     = fst (@bookDetails Fixture.axios dparams reqA Fixture.db1).
Proof.
  refine (@other_users_writes_do_not_show Fixture.axios 99
            {| AuthRequest.userId := 2 |} Fixture.req1
            {| AddToMyBooksBody.bookId := "B1";
               AddToMyBooksBody.bookState := READ |}
            {| UpdateBookReadingParams.id := "B1" |}
            {| UpdateBookReadingBody.page := 500 |}
            {| BookDetailsParams.bookId := "B1" |} Fixture.db1 wf_db1 _).
  simpl. discriminate.
Defined.

(** X20. A progress report rewrites the current page and the state only:
    the entry it returns has the total pages, cached catalog payload,
    owner, book id and creation instant of the entry found, and the
    instant of the write as [updatedAt]. *)
Theorem updateBookReading_keeps_other_columns
    (now : Z) (params : UpdateBookReadingParams.t)
    (body : UpdateBookReadingBody.t) (req : AuthRequest.t) (db : Db.t)
    (e : MyBooks.t) :
  wf_db db ->
  findOne (where_of (AuthRequest.userId req) (UpdateBookReadingParams.id params))
          db = (inr (Some e), db) ->
  exists e' db',
    updateBookReading now params body req db = (inr e', db')
    /\ List.length (Db.myBooks db') = List.length (Db.myBooks db)
    /\ MyBooks.totalPages e' = MyBooks.totalPages e
    /\ MyBooks.book e' = MyBooks.book e
    /\ MyBooks.userId e' = MyBooks.userId e
    /\ MyBooks.bookId e' = MyBooks.bookId e
    /\ MyBooks.createdAt e' = MyBooks.createdAt e
    /\ MyBooks.updatedAt e' = now.
Proof.
  intros Hwf Hfind.
  destruct (updateBookReading_found now params body req db e Hwf Hfind)
    as (l1 & l2 & Hrows & Hrun).
  eexists _, _. split; [exact Hrun|]. split; [|repeat split].
  simpl. rewrite Hrows, !length_app. reflexivity.
Qed.

Lemma updateBookReading_keeps_other_columns_witness :
  exists e' db',
    updateBookReading 99 {| UpdateBookReadingParams.id := "B1" |}
      {| UpdateBookReadingBody.page := 42 |} Fixture.req1 Fixture.db1
    = (inr e', db')
    /\ List.length (Db.myBooks db') = List.length (Db.myBooks Fixture.db1)
    /\ MyBooks.totalPages e' = 300
    /\ MyBooks.book e' = Fixture.B1
    /\ MyBooks.userId e' = 1
    /\ MyBooks.bookId e' = "B1"
    /\ MyBooks.createdAt e' = 10
    /\ MyBooks.updatedAt e' = 99.
Proof.
  exact (updateBookReading_keeps_other_columns 99
           {| UpdateBookReadingParams.id := "B1" |}
           {| UpdateBookReadingBody.page := 42 |} Fixture.req1 Fixture.db1
           Fixture.entry1 wf_db1 eq_refl).
Defined.

(** X21. Once a report reaches the total pages of an existing entry,
    [GET /my-books] by the same user lists that entry under [read] and
    under no other group. *)
Theorem myBooks_after_finishing
    (now : Z) (params : UpdateBookReadingParams.t)
    (body : UpdateBookReadingBody.t) (req : AuthRequest.t) (db : Db.t)
    (e : MyBooks.t) :
  wf_db db ->
  findOne (where_of (AuthRequest.userId req) (UpdateBookReadingParams.id params))
          db = (inr (Some e), db) ->
  UpdateBookReadingBody.page body >= MyBooks.totalPages e ->
  exists r e',
    fst (myBooks req (snd (updateBookReading now params body req db)))
    = inr r
    /\ MyBooks.id e' = MyBooks.id e
    /\ MyBooks.currentPage e' = Some (MyBooks.totalPages e)
    /\ In e' (MyBooksResponse.read r)
    /\ forall s, s <> READ -> ~ In e' (group s r).
Proof.
  intros Hwf Hfind Hpage.
  destruct (updateBookReading_next now params body req db e Hwf Hfind)
    as (Hfind1 & _ & _).
  simpl in Hfind1.
  destruct (findOne_Some_In _ _ _ Hfind1) as [Hin Hm].
  apply matches_where_of in Hm. destruct Hm as [Hu _].
  destruct (myBooks_run req (snd (updateBookReading now params body req db)))
    as (r & Hr & Hgroup).
  set (e1 := apply_update now
               (reading_data (UpdateBookReadingBody.page body) e) e) in *.
  assert (Hstate : MyBooks.bookState e1 = READ).
  { subst e1. simpl.
    destruct (Z.geb_spec (UpdateBookReadingBody.page body)
                         (MyBooks.totalPages e)); [reflexivity|lia]. }
  assert (Hcur : MyBooks.currentPage e1 = Some (MyBooks.totalPages e)).
  { subst e1. simpl.
    destruct (Z.geb_spec (UpdateBookReadingBody.page body)
                         (MyBooks.totalPages e)); [reflexivity|lia]. }
  exists r, e1. rewrite Hr. split; [reflexivity|].
  split; [reflexivity|]. split; [exact Hcur|]. split.
  - change (MyBooksResponse.read r) with (group READ r).
    rewrite Hgroup, !filter_In, BookState_eqb_eq, Z.eqb_eq. tauto.
  - intros s Hs. rewrite Hgroup, !filter_In, BookState_eqb_eq. intros [_ H].
    congruence.
Qed.

Lemma myBooks_after_finishing_witness :
  exists r e',
    fst (myBooks Fixture.req1
           (snd (updateBookReading 99 {| UpdateBookReadingParams.id := "B1" |}
                   {| UpdateBookReadingBody.page := 300 |} Fixture.req1
                   Fixture.db1)))
    = inr r
    /\ MyBooks.id e' = 1
    /\ MyBooks.currentPage e' = Some 300
    /\ In e' (MyBooksResponse.read r)
    /\ forall s, s <> READ -> ~ In e' (group s r).
Proof.
  refine (myBooks_after_finishing 99 {| UpdateBookReadingParams.id := "B1" |}
            {| UpdateBookReadingBody.page := 300 |} Fixture.req1 Fixture.db1
            Fixture.entry1 wf_db1 eq_refl _).
  simpl. lia.
Defined.

Lemma session_reads_only_and_fails_alike_witness :
  @signin Fixture.jwt Fixture.bcrypt
    {| SignInBody.email := "nobody@dev.books";
       SignInBody.password := "s3cret" |} Fixture.db1
  = (inl (UnauthorizedException "Invalid credentials"), Fixture.db1)
  /\ @signin Fixture.jwt Fixture.bcrypt
       {| SignInBody.email := "ana@dev.books";
          SignInBody.password := "wrong" |} Fixture.db1
     = (inl (UnauthorizedException "Invalid credentials"), Fixture.db1)
  /\ (exists r,
        @signin Fixture.jwt Fixture.bcrypt
          {| SignInBody.email := "ana@dev.books";
             SignInBody.password := "s3cret" |} Fixture.db1
        = (inr r, Fixture.db1)
        /\ SignInResponse.user r = delete_password Fixture.ana)
  /\ match fst (@refresh Fixture.jwt
                  {| RefreshHeaders.authorization := "Bearer forged" |}
                  Fixture.db1) with
     | inl ex => ex = UnauthorizedException "Cannot refresh session"
     | inr _ => False
     end.
Proof.
  pose proof (@session_reads_only_and_fails_alike Fixture.jwt Fixture.bcrypt)
    as H.
  split; [|split; [|split]].
  - destruct (H {| SignInBody.email := "nobody@dev.books";
                   SignInBody.password := "s3cret" |}
                {| RefreshHeaders.authorization := "" |} Fixture.db1)
      as (_ & _ & _ & _ & Hunknown & _).
    exact (Hunknown eq_refl).
  - destruct (H {| SignInBody.email := "ana@dev.books";
                   SignInBody.password := "wrong" |}
                {| RefreshHeaders.authorization := "" |} Fixture.db1)
      as (_ & _ & _ & _ & _ & Hwrong & _).
    exact (Hwrong Fixture.ana eq_refl eq_refl).
  - destruct (H {| SignInBody.email := "ana@dev.books";
                   SignInBody.password := "s3cret" |}
                {| RefreshHeaders.authorization := "" |} Fixture.db1)
      as (_ & _ & _ & _ & _ & _ & Hright).
    exact (Hright Fixture.ana eq_refl eq_refl).
  - destruct (H {| SignInBody.email := "ana@dev.books";
                   SignInBody.password := "wrong" |}
                {| RefreshHeaders.authorization := "Bearer forged" |}
                Fixture.db1)
      as (_ & _ & _ & Hrefresh & _).
    exact (Hrefresh _ _ eq_refl).
Defined.
